(** * TwinCAT_To_PDF: a shallow embedding of [TwinCAT_To_PDF.py]

    The script walks a folder of TwinCAT source files, extracts the code
    segments of every file from its XML tree, and renders them into one
    document (title page, table of contents, highlighted code).

    Conventions of the embedding:
    - a Python [str] is a [string]; a character is a code point below 256;
    - a [pathlib.Path] is the text of the path, kept apart from strings;
    - a list or dict mutated in place is threaded through as a value;
    - an uncaught exception is the [Raise] outcome of the [result] monad;
    - the document handed to [doc.build] is the list of its flowables; a
      [Paragraph] keeps the markup text it is given, and the layout and the
      writing of the file are left to the library. *)

From Stdlib Require Import String Ascii List Bool Arith Lia DecimalString.
Import ListNotations.

Set Warnings "-register-all".

Local Open Scope string_scope.
Local Open Scope list_scope.
Local Open Scope nat_scope.

Notation "a +:+ b" := (String.append a b) (at level 60, right associativity).

(** ** Python strings *)

Module PyStr.

(** [str(n)] for a non-negative [int]. *)
Definition str (n : nat) : string := NilEmpty.string_of_uint (Nat.to_uint n).

(** Truth value of a string: only the empty string is false. *)
Definition truthy (s : string) : bool :=
  match s with EmptyString => false | String _ _ => true end.

(** [str.isspace] on one character (code points below 256). *)
Definition isspace (c : ascii) : bool :=
  let n := nat_of_ascii c in
  ((9 <=? n) && (n <=? 13)) || ((28 <=? n) && (n <=? 32))
  || (n =? 133) || (n =? 160).

Fixpoint lstrip (s : string) : string :=
  match s with
  | EmptyString => EmptyString
  | String c s' => if isspace c then lstrip s' else s
  end.

Fixpoint rstrip (s : string) : string :=
  match s with
  | EmptyString => EmptyString
  | String c s' =>
      match rstrip s' with
      | EmptyString => if isspace c then EmptyString else String c EmptyString
      | r => String c r
      end
  end.

(** [s.strip()] *)
Definition strip (s : string) : string := rstrip (lstrip s).

(** [s.replace(old, new)] for a one-character [old]. *)
Fixpoint replace (old : ascii) (new : string) (s : string) : string :=
  match s with
  | EmptyString => EmptyString
  | String c s' =>
      if Ascii.eqb c old then new +:+ replace old new s'
      else String c (replace old new s')
  end.

(** [s.split(sep)] for a one-character [sep]: never the empty list. *)
Fixpoint split (sep : ascii) (s : string) : list string :=
  match s with
  | EmptyString => [EmptyString]
  | String c s' =>
      if Ascii.eqb c sep then EmptyString :: split sep s'
      else match split sep s' with
           | h :: t => String c h :: t
           | [] => [String c EmptyString]
           end
  end.

Fixpoint drop (n : nat) (s : string) : string :=
  match n, s with
  | S k, String _ s' => drop k s'
  | _, _ => s
  end.

(** The text before and after the first occurrence of [needle]:
    [s.split(needle, 1)] when [needle in s], [None] otherwise. *)
Fixpoint split_first (needle s : string) : option (string * string) :=
  if String.prefix needle s then Some (EmptyString, drop (String.length needle) s)
  else match s with
       | EmptyString => None
       | String c s' =>
           match split_first needle s' with
           | Some (a, b) => Some (String c a, b)
           | None => None
           end
       end.

(** [needle in s] *)
Definition contains (needle s : string) : bool :=
  match split_first needle s with Some _ => true | None => false end.

(** [s.split(sep)[-1]]: what follows the last [sep]. *)
Fixpoint after_last (sep : ascii) (s : string) : string :=
  match s with
  | EmptyString => EmptyString
  | String c s' =>
      if contains (String sep EmptyString) s' then after_last sep s'
      else if Ascii.eqb c sep then s' else s
  end.

End PyStr.

(** ** Exceptions *)

Inductive exn : Type :=
| TypeError       (* unpacking a value that is not a pair *)
| ValueError      (* raised by the document library *)
| RecursionError. (* the call depth is exhausted *)

Inductive result (A : Type) : Type :=
| Ok (a : A)
| Raise (e : exn).
Arguments Ok {A} a.
Arguments Raise {A} e.

Definition bind {A B} (m : result A) (k : A -> result B) : result B :=
  match m with Ok a => k a | Raise e => Raise e end.

Notation "x <- m ;; k" := (bind m (fun x => k))
  (at level 61, m at next level, right associativity).

(** A [for] loop whose body may raise: the state threads through. *)
Fixpoint for_each {A S : Type} (body : A -> S -> result S) (l : list A) (s : S)
  : result S :=
  match l with
  | [] => Ok s
  | x :: l' => s' <- body x s ;; for_each body l' s'
  end.

(** [enumerate(l, start)] and [enumerate(l)] *)
Definition enumerate_from {A : Type} (start : nat) (l : list A) : list (nat * A) :=
  combine (seq start (length l)) l.

Definition enumerate {A : Type} (l : list A) : list (nat * A) :=
  enumerate_from 0 l.

(** ** The XML tree ([xml.etree.ElementTree]) *)

Module ET.

Inductive Element : Type :=
| Elem (tag : string) (attrib : list (string * string))
       (text : option string) (children : list Element).

Definition tag (e : Element) := let 'Elem t _ _ _ := e in t.
Definition attrib (e : Element) := let 'Elem _ a _ _ := e in a.
Definition text (e : Element) := let 'Elem _ _ x _ := e in x.
Definition children (e : Element) := let 'Elem _ _ _ c := e in c.

(** [e.attrib.get(key, default)] *)
Fixpoint get (a : list (string * string)) (key default : string) : string :=
  match a with
  | [] => default
  | (k, v) :: a' => if String.eqb k key then v else get a' key default
  end.

(** [e.iter()]: the element and its descendants in document order. *)
Fixpoint iter (e : Element) : list Element :=
  let 'Elem _ _ _ cs := e in
  e :: (fix iter_all (l : list Element) : list Element :=
          match l with
          | [] => []
          | c :: l' => iter c ++ iter_all l'
          end) cs.

Definition has_tag (t : string) (e : Element) : bool := String.eqb (tag e) t.

(** The path step [t]: the children with tag [t]. *)
Definition child_step (t : string) (ctx : list Element) : list Element :=
  flat_map (fun e => filter (has_tag t) (children e)) ctx.

(** The path step [//t]: the proper descendants with tag [t]. *)
Definition descendant_step (t : string) (ctx : list Element) : list Element :=
  flat_map (fun e => filter (has_tag t) (tl (iter e))) ctx.

(** [e.findall(t)] and [e.find(t)] *)
Definition findall_child (t : string) (e : Element) : list Element :=
  child_step t [e].
Definition find_child (t : string) (e : Element) : option Element :=
  hd_error (findall_child t e).

(** [e.find("a/b")] *)
Definition find_child2 (a b : string) (e : Element) : option Element :=
  hd_error (child_step b (child_step a [e])).

(** [e.findall(".//t")] and [e.find(".//t")] *)
Definition findall_desc (t : string) (e : Element) : list Element :=
  descendant_step t [e].
Definition find_desc (t : string) (e : Element) : option Element :=
  hd_error (findall_desc t e).

(** [e.find(".//a/b")] *)
Definition find_desc2 (a b : string) (e : Element) : option Element :=
  hd_error (child_step b (descendant_step a [e])).

End ET.

(** ** Paths *)

(** A [pathlib.Path], held as the text [str(p)] gives (components joined
    by a slash). It stays a [Path] object: it is not a string, not a pair. *)
Definition Path : Type := string.

(** [p.name]: the last component. *)
Definition Path_name (p : Path) : string := PyStr.after_last "/" p.

(** [p / child] *)
Definition Path_join (p : Path) (child : string) : Path := p +:+ "/" +:+ child.

(** [p.suffix]: the last dot of the name and what follows it, unless the
    dot starts or ends the name. *)
Definition suffix (p : Path) : string :=
  let n := Path_name p in
  if PyStr.contains "." n then
    let ext := PyStr.after_last "." n in
    if (String.length ext =? 0) || (String.length ext + 1 =? String.length n)
    then EmptyString
    else String "." ext
  else EmptyString.

(** ** Segment extraction *)

(** A code segment: its label and its text. *)
Definition Segment : Type := (string * string)%type.

(** The text between the first CDATA opener and the first closer after it:
    [re.search(r'<!\[CDATA\[(.*?)\]\]>', text, re.DOTALL)], group 1. *)
Definition cdata_search (text : string) : option string :=
  match PyStr.split_first "<![CDATA[" text with
  | Some (_, rest) =>
      match PyStr.split_first "]]>" rest with
      | Some (body, _) => Some body
      | None => None
      end
  | None => None
  end.

Definition extract_cdata (text : string) : option string :=
  if PyStr.truthy text then
    match cdata_search text with
    | Some body => Some (PyStr.strip body)
    | None => Some (PyStr.strip text)
    end
  else None.

(** The step repeated for every candidate block [node]:
    [if node is not None and node.text:] extract its payload and
    [if payload: code_segments.append((label, payload))]. *)
Definition append_segment (label : string) (node : option ET.Element)
    (code_segments : list Segment) : list Segment :=
  match node with
  | Some e =>
      match ET.text e with
      | Some t =>
          if PyStr.truthy t then
            match extract_cdata t with
            | Some content =>
                if PyStr.truthy content
                then code_segments ++ [(label, content)]
                else code_segments
            | None => code_segments
            end
          else code_segments
      | None => code_segments
      end
  | None => code_segments
  end.

(** The title of a unit, by the tag of its root without namespace. *)
Definition unit_title (file_path : Path) (root : ET.Element) : string :=
  let obj_type := PyStr.after_last "}" (ET.tag root) in
  let obj_name := ET.get (ET.attrib root) "Name" "Unknown" in
  if String.eqb obj_type "POU" then
    let pou_type := ET.get (ET.attrib root) "SpecialFunc" "" in
    obj_type +:+ ": " +:+ obj_name +:+ " " +:+ pou_type
  else if String.eqb obj_type "Itf" then "Interface: " +:+ obj_name
  else if String.eqb obj_type "DUT" then "DUT: " +:+ obj_name
  else if String.eqb obj_type "GVL" then "GVL: " +:+ obj_name
  else Path_name file_path.

(** Body of the loop over the methods. *)
Definition method_segments (method : ET.Element) (code_segments : list Segment)
  : list Segment :=
  let method_name := ET.get (ET.attrib method) "Name" "Unknown" in
  let method_decl := ET.find_child "Declaration" method in
  let method_impl := ET.find_child2 "Implementation" "ST" method in
  let code_segments :=
    append_segment ("Method " +:+ method_name +:+ " Declaration")
                   method_decl code_segments in
  append_segment ("Method " +:+ method_name +:+ " Implementation")
                 method_impl code_segments.

(** The getter or setter of a property ([which] is "Get" or "Set"). *)
Definition accessor_segments (prop_name which : string)
    (accessor : option ET.Element) (code_segments : list Segment)
  : list Segment :=
  match accessor with
  | Some acc =>
      let decl := ET.find_child "Declaration" acc in
      let impl := ET.find_child2 "Implementation" "ST" acc in
      let code_segments :=
        append_segment ("Property " +:+ prop_name +:+ " " +:+ which +:+ " Declaration")
                       decl code_segments in
      append_segment ("Property " +:+ prop_name +:+ " " +:+ which +:+ " Implementation")
                     impl code_segments
  | None => code_segments
  end.

(** Body of the loop over the properties. *)
Definition property_segments (prop : ET.Element) (code_segments : list Segment)
  : list Segment :=
  let prop_name := ET.get (ET.attrib prop) "Name" "Unknown" in
  let prop_decl := ET.find_child "Declaration" prop in
  let code_segments :=
    append_segment ("Property " +:+ prop_name +:+ " Declaration")
                   prop_decl code_segments in
  let get_method := ET.find_child "Get" prop in
  let set_method := ET.find_child "Set" prop in
  let code_segments :=
    accessor_segments prop_name "Get" get_method code_segments in
  accessor_segments prop_name "Set" set_method code_segments.

(** The segments collected from a parsed tree. *)
Definition collect_segments (root : ET.Element) : list Segment :=
  let code_segments := [] in
  let declaration := ET.find_desc "Declaration" root in
  let code_segments := append_segment "Declaration" declaration code_segments in
  let implementation := ET.find_desc2 "Implementation" "ST" root in
  let code_segments := append_segment "Implementation" implementation code_segments in
  let methods := ET.findall_desc "Method" root in
  let code_segments := fold_left (fun acc m => method_segments m acc) methods code_segments in
  let properties := ET.findall_desc "Property" root in
  fold_left (fun acc p => property_segments p acc) properties code_segments.

(** [ET.parse(file_path)]: the tree, or the message of the exception. *)
Inductive parsed : Type :=
| Tree (root : ET.Element)
| ParseFailure (message : string).

(** [extract_twincat_code]: what is printed, and the pair returned
    ([None] stands for the pair [(None, None)]). *)
Definition extract_twincat_code (parse : Path -> parsed) (file_path : Path)
  : list string * option (string * list Segment) :=
  match parse file_path with
  | Tree root => ([], Some (unit_title file_path root, collect_segments root))
  | ParseFailure e =>
      (["Error processing " +:+ file_path +:+ ": " +:+ e], None)
  end.

(** ** Regular expressions of the highlighter ([re]) *)

Module Re.

(** The class [\w] on one character (code points below 256): the
    alphanumeric characters and the underscore. *)
Definition is_word (c : ascii) : bool :=
  let n := nat_of_ascii c in
  ((48 <=? n) && (n <=? 57)) || ((65 <=? n) && (n <=? 90))
  || ((97 <=? n) && (n <=? 122)) || (n =? 95)
  || (n =? 170) || (n =? 178) || (n =? 179) || (n =? 181)
  || (n =? 185) || (n =? 186) || ((188 <=? n) && (n <=? 190))
  || ((192 <=? n) && (n <=? 214)) || ((216 <=? n) && (n <=? 246))
  || (248 <=? n).

Definition is_word_opt (c : option ascii) : bool :=
  match c with Some c => is_word c | None => false end.

(** The pieces the keyword patterns are made of. *)
Inductive item : Type :=
| Lit (c : ascii)   (* the character itself *)
| Bol               (* [^]: the start of the text *)
| WordB.            (* [\b]: a word boundary *)

(** The keywords are pasted into the pattern unescaped. Of the characters
    of the keyword list only the caret is an operator. *)
Definition item_of_char (c : ascii) : item :=
  if Ascii.eqb c "^" then Bol else Lit c.

Fixpoint items_of_string (s : string) : list item :=
  match s with
  | EmptyString => []
  | String c s' => item_of_char c :: items_of_string s'
  end.

(** [rf'\b{keyword}\b'] *)
Definition word_pattern (keyword : string) : list item :=
  WordB :: items_of_string keyword ++ [WordB].

Definition head (s : string) : option ascii :=
  match s with EmptyString => None | String c _ => Some c end.

(** [\b] between the character before the position and the one at it. *)
Definition boundary (prev next : option ascii) : bool :=
  xorb (is_word_opt prev) (is_word_opt next).

(** Match the pattern at the start of [s], the character before being
    [prev] ([None] at the start of the text): the text matched and what
    follows it. *)
Fixpoint match_here (p : list item) (prev : option ascii) (s : string)
  : option (string * string) :=
  match p with
  | [] => Some (EmptyString, s)
  | Lit c :: p' =>
      match s with
      | String d s' =>
          if Ascii.eqb c d then
            match match_here p' (Some d) s' with
            | Some (m, r) => Some (String d m, r)
            | None => None
            end
          else None
      | EmptyString => None
      end
  | Bol :: p' =>
      match prev with
      | None => match_here p' prev s
      | Some _ => None
      end
  | WordB :: p' =>
      if boundary prev (head s) then match_here p' prev s else None
  end.

(** The scan of [re.sub]: [skip] characters of a match already replaced
    are passed over, elsewhere the pattern is tried at each position. *)
Fixpoint sub_scan (p : list item) (repl : string -> string)
    (prev : option ascii) (skip : nat) (s : string) : string :=
  match s with
  | EmptyString =>
      match match_here p prev EmptyString with
      | Some (m, _) => repl m
      | None => EmptyString
      end
  | String c s' =>
      match skip with
      | S k => sub_scan p repl (Some c) k s'
      | O =>
          match match_here p prev s with
          | Some (String _ m' as m, _) =>
              repl m +:+ sub_scan p repl (Some c) (String.length m') s'
          | Some (EmptyString, _) =>
              repl EmptyString +:+ String c (sub_scan p repl (Some c) 0 s')
          | None => String c (sub_scan p repl (Some c) 0 s')
          end
      end
  end.

(** [re.sub(p, repl, s)] *)
Definition sub (p : list item) (repl : string -> string) (s : string) : string :=
  sub_scan p repl None 0 s.

End Re.

(** ** The document *)

Inductive Style : Type := Normal | Title | Heading | Subheading | CodeStyle.

(** The heights the script gives its spacers. *)
Inductive Gap : Type := cm_5 | cm_1 | cm_half | pt_10.

Inductive Flowable : Type :=
| Paragraph (text : string) (style : Style)
| Spacer (height : Gap)
| PageBreak
| TableOf (rows : list (list string)).

(** [Table(data, colWidths=[450])]: the library refuses a table without
    rows (its [emptyTableAction] setting is ['error'] unless changed). *)
Definition Table (data : list (list string)) : result Flowable :=
  match data with
  | [] => Raise ValueError
  | _ :: _ => Ok (TableOf data)
  end.

(** ** Line rendering *)

Definition dquote : string := String (ascii_of_nat 34) EmptyString.

(** [f'<font color="blue">{m.group(0)}</font>'] *)
Definition blue (m : string) : string :=
  "<font color=" +:+ dquote +:+ "blue" +:+ dquote +:+ ">" +:+ m +:+ "</font>".

(** [f'<font color="green">//{comment_part}</font>'] *)
Definition green (comment_part : string) : string :=
  "<font color=" +:+ dquote +:+ "green" +:+ dquote +:+ ">//" +:+ comment_part +:+ "</font>".

Definition keywords : list string :=
  [ "__UXINT"; "__XINT"; "__XWORD"; "BIT"; "BOOL"; "BYTE"; "DATE"; "DATE_AND_TIME";
    "DINT"; "DT"; "DWORD"; "INT"; "LDATE"; "LDATE_AND_TIME"; "LDT"; "LINT";
    "LREAL"; "LTIME"; "LTOD"; "LWORD"; "REAL"; "SINT"; "STRING"; "TIME";
    "TOD"; "TIME_OF_DAY"; "UDINT"; "UINT"; "ULINT"; "USINT"; "WORD"; "WSTRING";
    "FUNCTION_BLOCK"; "PROGRAM"; "IMPLEMENTS"; "INTERFACE"; "VAR"; "END_VAR"; "EXTENDS";
    "PROPERTY"; "TYPE"; "END_TYPE"; "STRUCT"; "END_STRUCT"; "POINTER"; "TO"; "DO";
    "FOR"; "END_FOR"; "END_IF"; "IF"; "AND"; "AND_THEN"; "OR_ELSE"; "ELSE"; "WHILE";
    "REPEAT"; "UNTIL"; "CASE"; "OF"; "ADR"; "XOR"; "VAR_INPUT"; "VAR_OUTPUT"; "PERSISTENT";
    "RETAIN"; "AT"; "ARRAY"; "OF"; "METHOD"; "THIS^"; "NOT"; "THEN"; "ELSIF";
    "REFERENCE"; "REF="; "PUBLIC"; "PRIVATE"; "CONSTANT"; "VAR_GLOBAL" ].

(** The loop [for keyword in keywords: text = re.sub(...)], found in both
    branches of the line rendering. *)
Definition highlight (text : string) : string :=
  fold_left (fun acc keyword => Re.sub (Re.word_pattern keyword) blue acc)
            keywords text.

(** [line.replace('&', '&amp;').replace('<', '&lt;').replace('>', '&gt;')] *)
Definition escape (line : string) : string :=
  PyStr.replace ">" "&gt;" (PyStr.replace "<" "&lt;" (PyStr.replace "&" "&amp;" line)).

(** Body of the loop over the lines of a segment. [line.split("//", 1)]
    is taken when ["//" in line], which is when [split_first] finds it. *)
Definition render_line (line : string) : Flowable :=
  let safe_line := escape line in
  if PyStr.truthy (PyStr.strip safe_line) then
    match PyStr.split_first "//" line with
    | Some (code_part, comment_part) =>
        let code_part := highlight code_part in
        let full_line := code_part +:+ green comment_part in
        Paragraph (PyStr.strip full_line) CodeStyle
    | None =>
        let highlighted := highlight safe_line in
        Paragraph (PyStr.strip highlighted) CodeStyle
    end
  else Spacer pt_10.

(** Body of the loop over the segments of a file. *)
Definition render_segment (segment : Segment) (elements : list Flowable)
  : list Flowable :=
  let '(segment_title, code) := segment in
  let elements := elements ++ [Paragraph segment_title Subheading] in
  let code_lines := PyStr.split "010" code in
  let elements :=
    fold_left (fun els line => els ++ [render_line line]) code_lines elements in
  elements ++ [Spacer cm_half].

(** ** The folder group *)

(** An element of a folder's list: the path [collect_files] put there, or
    the pair [(title, code_segments)] the main loop replaced it with. *)
Inductive entry : Type :=
| RawPath (file_path : Path)
| Extracted (title : string) (code_segments : list Segment).

(** A value of the mapping: a list of entries, or again a mapping (the case
    [isinstance(subfiles, dict)] asks for). *)
Inductive value : Type :=
| Files (files : list entry)
| SubDict (items : list (Path * value)).

(** A [dict] in insertion order. *)
Definition Dict : Type := list (Path * value).

Definition is_dict (v : value) : bool :=
  match v with SubDict _ => true | Files _ => false end.

(** What [for ... in files] runs over: the elements of a list, the keys of
    a mapping. *)
Definition iterate (files : value) : list entry :=
  match files with
  | Files l => l
  | SubDict d => map (fun kv => RawPath (fst kv)) d
  end.

(** The target [title, x] of a [for]: a pair unpacks, a [Path] does not. *)
Definition unpack (e : entry) : result (string * list Segment) :=
  match e with
  | Extracted title code_segments => Ok (title, code_segments)
  | RawPath _ => Raise TypeError
  end.

(** ** Table of contents and body *)

(** The loop over the subfolders, which the two passes share word for word:
    [call] is the pass itself, applied to the one-entry mapping of each
    entry whose value is a mapping. *)
Definition subfolders {S : Type} (call : Dict -> string -> S -> result S)
    (data : Dict) (folder_label : string) (s : S) : result S :=
  st <- for_each
          (fun (sub : Path * value) (st : S * nat) =>
             let '(subfolder, subfiles) := sub in
             let '(s, subfolder_index) := st in
             if is_dict subfiles then
               s <- call [(subfolder, subfiles)]
                         (folder_label +:+ "." +:+ PyStr.str subfolder_index) s ;;
               Ok (s, subfolder_index + 1)
             else Ok (s, subfolder_index))
          data (s, 1) ;;
  Ok (fst st).

(** Body of the loop over the files of a folder in [add_to_toc]. *)
Definition toc_file (folder_label : string) (e : entry)
    (st : list (list string) * nat) : result (list (list string) * nat) :=
  let '(toc_data, file_index) := st in
  tc <- unpack e ;;
  let '(title, _) := tc in
  Ok (toc_data ++ [["    " +:+ folder_label +:+ "." +:+ PyStr.str file_index
                      +:+ " " +:+ title]],
      file_index + 1).

(** Body of the loop over the folders in [add_to_toc]. *)
Definition toc_folder (call : Dict -> string -> list (list string) -> result (list (list string)))
    (data : Dict) (prefix : string) (item : nat * (Path * value))
    (toc_data : list (list string)) : result (list (list string)) :=
  let '(idx, (folder, files)) := item in
  let folder_label := prefix +:+ PyStr.str (idx + 1) in
  let toc_data := toc_data ++ [[folder_label +:+ " " +:+ folder]] in
  st <- for_each (toc_file folder_label) (iterate files) (toc_data, 1) ;;
  subfolders call data folder_label (fst st).

(** [add_to_toc(data, prefix)], appending to [toc_data]; [limit] bounds the
    depth of the calls. *)
Fixpoint add_to_toc (limit : nat) (data : Dict) (prefix : string)
    (toc_data : list (list string)) : result (list (list string)) :=
  match limit with
  | O => Raise RecursionError
  | S limit' =>
      for_each (toc_folder (add_to_toc limit') data prefix)
               (enumerate data) toc_data
  end.

(** Body of the loop over the files of a folder in [add_code_files]. *)
Definition add_file (folder_label : string) (e : entry)
    (st : list Flowable * nat) : result (list Flowable * nat) :=
  let '(elements, file_index) := st in
  tc <- unpack e ;;
  let '(title, code_segments) := tc in
  let elements :=
    elements ++ [Paragraph (folder_label +:+ "." +:+ PyStr.str file_index
                              +:+ " " +:+ title) Subheading] in
  let elements :=
    fold_left (fun els segment => render_segment segment els)
              code_segments elements in
  Ok (elements, file_index + 1).

(** Body of the loop over the folders in [add_code_files]. The flag
    [FirstCycleDone] is unset exactly at index 0. *)
Definition add_folder (call : Dict -> string -> list Flowable -> result (list Flowable))
    (data : Dict) (prefix : string) (item : nat * (Path * value))
    (elements : list Flowable) : result (list Flowable) :=
  let '(idx, (folder, files)) := item in
  let elements := if idx =? 0 then elements else elements ++ [PageBreak] in
  let folder_label := prefix +:+ PyStr.str (idx + 1) in
  let elements :=
    elements ++ [Paragraph (folder_label +:+ " " +:+ folder) Heading] in
  st <- for_each (add_file folder_label) (iterate files) (elements, 1) ;;
  subfolders call data folder_label (fst st).

(** [add_code_files(data, prefix)], appending to [elements]. *)
Fixpoint add_code_files (limit : nat) (data : Dict) (prefix : string)
    (elements : list Flowable) : result (list Flowable) :=
  match limit with
  | O => Raise RecursionError
  | S limit' =>
      for_each (add_folder (add_code_files limit') data prefix)
               (enumerate data) elements
  end.

(** ** [os.path] *)

Module OsPath.

(** [p[:i]] for [i = p.rfind('/') + 1]: the path up to its last slash. *)
Fixpoint head (p : string) : string :=
  match p with
  | EmptyString => EmptyString
  | String c p' =>
      if PyStr.contains "/" p' then String c (head p')
      else if Ascii.eqb c "/" then "/" else EmptyString
  end.

(** [p[i:]] for the same [i]. *)
Definition basename (p : string) : string := PyStr.after_last "/" p.

Fixpoint all_slashes (s : string) : bool :=
  match s with
  | EmptyString => true
  | String c s' => Ascii.eqb c "/" && all_slashes s'
  end.

(** [s.rstrip('/')] *)
Fixpoint rstrip_slash (s : string) : string :=
  match s with
  | EmptyString => EmptyString
  | String c s' =>
      match rstrip_slash s' with
      | EmptyString => if Ascii.eqb c "/" then EmptyString else String c EmptyString
      | r => String c r
      end
  end.

Definition dirname (p : string) : string :=
  let h := head p in
  if PyStr.truthy h && negb (all_slashes h) then rstrip_slash h else h.

End OsPath.

(** ** [generate_pdf] *)

(** The flowables handed to [doc.build] and the line printed after it. *)
Definition generate_pdf (limit : nat) (code_files_by_folder : Dict)
    (output_pdf : string) : result (list Flowable * list string) :=
  let elements := [] in
  (* title page *)
  let elements := elements ++ [Spacer cm_5] in
  let elements := elements ++ [Paragraph "TwinCAT PLC PDF Auto-Gen" Title] in
  let elements := elements ++ [Spacer cm_1] in
  let elements :=
    elements ++ [Paragraph ("Generated on: " +:+
                            OsPath.basename (OsPath.dirname output_pdf)) Normal] in
  let elements :=
    elements ++ [Paragraph ("Total files: " +:+
                            PyStr.str (length code_files_by_folder)) Normal] in
  let elements := elements ++ [PageBreak] in
  (* table of contents *)
  let elements := elements ++ [Paragraph "Table of Contents" Heading] in
  let elements := elements ++ [Spacer cm_half] in
  toc_data <- add_to_toc limit code_files_by_folder "" [] ;;
  toc <- Table toc_data ;;
  let elements := elements ++ [toc] in
  let elements := elements ++ [PageBreak] in
  (* body *)
  elements <- add_code_files limit code_files_by_folder "" elements ;;
  Ok (elements, ["PDF generated successfully: " +:+ output_pdf]).

(** ** [collect_files] and [main] *)

Definition is_twincat_file (file_path : Path) : bool :=
  existsb (String.eqb (suffix file_path)) [".TcPOU"; ".TcDUT"; ".TcGVL"; ".TcIO"].

(** [files_by_folder[folder_path].append(file_path)], the key being added
    with an empty list when it is new. *)
Fixpoint dict_append (d : list (Path * list Path)) (folder_path file_path : Path)
  : list (Path * list Path) :=
  match d with
  | [] => [(folder_path, [file_path])]
  | (k, l) :: d' =>
      if String.eqb k folder_path then (k, l ++ [file_path]) :: d'
      else (k, l) :: dict_append d' folder_path file_path
  end.

(** One directory of [os.walk(input_folder)]: its path relative to
    [input_folder] (["."] for the folder itself) and its file names. *)
Definition walk_entry : Type := (Path * list string)%type.

Definition collect_files (walk : list walk_entry) (input_folder : Path)
  : list (Path * list Path) :=
  fold_left
    (fun files_by_folder (w : walk_entry) =>
       let '(folder_path, files) := w in
       let root := if String.eqb folder_path "." then input_folder
                   else Path_join input_folder folder_path in
       fold_left
         (fun files_by_folder file =>
            let file_path := Path_join root file in
            if is_twincat_file file_path
            then dict_append files_by_folder folder_path file_path
            else files_by_folder)
         files files_by_folder)
    walk [].

(** What the main loop leaves at the place of [file_path]: the pair, but
    only [if title and code_segments]; the path itself otherwise. *)
Definition extract_entry (parse : Path -> parsed) (file_path : Path)
  : list string * entry :=
  let '(printed, r) := extract_twincat_code parse file_path in
  (printed,
   match r with
   | Some (title, code_segments) =>
       if PyStr.truthy title && negb (length code_segments =? 0)
       then Extracted title code_segments
       else RawPath file_path
   | None => RawPath file_path
   end).

(** The loop of [main] over one folder's list. *)
Definition extract_folder (parse : Path -> parsed) (files : list Path)
  : list string * list entry :=
  fold_left
    (fun (acc : list string * list entry) file_path =>
       let '(printed, e) := extract_entry parse file_path in
       (fst acc ++ printed, snd acc ++ [e]))
    files ([], []).

Definition extract_all (parse : Path -> parsed) (d : list (Path * list Path))
  : list string * Dict :=
  fold_left
    (fun (acc : list string * Dict) (kv : Path * list Path) =>
       let '(folder, files) := kv in
       let '(printed, entries) := extract_folder parse files in
       (fst acc ++ printed, snd acc ++ [(folder, Files entries)]))
    d ([], []).

(** The outcome of a run: the lines printed, the exit status, and the
    document when one was built. *)
Record outcome : Type := mkOutcome {
  stdout : list string;
  status : nat;
  document : option (list Flowable)
}.

Definition main (limit : nat) (walk : Path -> list walk_entry)
    (parse : Path -> parsed) (argv : list string) : outcome :=
  match argv with
  | _ :: input_folder :: output_pdf :: _ =>
      let code_files_by_folder := collect_files (walk input_folder) input_folder in
      let found :=
        "Found " +:+
        PyStr.str (list_sum (map (fun kv => length (snd kv)) code_files_by_folder))
        +:+ " TwinCAT files" in
      let '(printed, code_files_by_folder) := extract_all parse code_files_by_folder in
      match generate_pdf limit code_files_by_folder output_pdf with
      | Ok (elements, done) =>
          mkOutcome ([found] ++ printed ++ done) 0 (Some elements)
      | Raise _ => mkOutcome ([found] ++ printed) 1 None
      end
  | _ =>
      mkOutcome
        ["Usage: python twincat_code_extractor.py <input_folder> <output_pdf>"]
        1 None
  end.

(** * Specification-side definitions *)

(** ** The canonical order of the segments *)

(** A candidate block: the label it would carry and the node found. *)
Definition candidate : Type := (string * option ET.Element)%type.

(** The payload of a node after trimming; empty when the node or its text
    is missing. *)
Definition node_payload (node : option ET.Element) : string :=
  match node with
  | Some e =>
      match ET.text e with
      | Some t => match extract_cdata t with Some p => p | None => EmptyString end
      | None => EmptyString
      end
  | None => EmptyString
  end.

Definition trimmed_payload (c : candidate) : string := node_payload (snd c).

Definition method_candidates (m : ET.Element) : list candidate :=
  let n := ET.get (ET.attrib m) "Name" "Unknown" in
  [ ("Method " +:+ n +:+ " Declaration", ET.find_child "Declaration" m);
    ("Method " +:+ n +:+ " Implementation", ET.find_child2 "Implementation" "ST" m) ].

Definition accessor_candidates (n which : string) (acc : option ET.Element)
  : list candidate :=
  match acc with
  | Some a =>
      [ ("Property " +:+ n +:+ " " +:+ which +:+ " Declaration",
         ET.find_child "Declaration" a);
        ("Property " +:+ n +:+ " " +:+ which +:+ " Implementation",
         ET.find_child2 "Implementation" "ST" a) ]
  | None => []
  end.

Definition property_candidates (p : ET.Element) : list candidate :=
  let n := ET.get (ET.attrib p) "Name" "Unknown" in
  [ ("Property " +:+ n +:+ " Declaration", ET.find_child "Declaration" p) ]
  ++ accessor_candidates n "Get" (ET.find_child "Get" p)
  ++ accessor_candidates n "Set" (ET.find_child "Set" p).

(** Main declaration, main implementation, the methods in document order,
    the properties in document order. *)
Definition canonical_candidates (root : ET.Element) : list candidate :=
  [ ("Declaration", ET.find_desc "Declaration" root);
    ("Implementation", ET.find_desc2 "Implementation" "ST" root) ]
  ++ flat_map method_candidates (ET.findall_desc "Method" root)
  ++ flat_map property_candidates (ET.findall_desc "Property" root).

(** The candidates whose trimmed payload is not empty, in that order. *)
Definition canonical_segments (root : ET.Element) : list Segment :=
  map (fun c => (fst c, trimmed_payload c))
      (filter (fun c => PyStr.truthy (trimmed_payload c))
              (canonical_candidates root)).

(** ** The folder group of the specification and its outline *)

(** A folder group as the collector and the extractor build it: every
    folder holds the list of its extracted files. *)
Definition FolderGroup : Type := list (Path * list (string * list Segment)).

Definition of_group (g : FolderGroup) : Dict :=
  map (fun kv =>
         (fst kv, Files (map (fun f => Extracted (fst f) (snd f)) (snd kv))))
      g.

(** A numbered file and a numbered folder. *)
Record FileHeading : Type := mkFileHeading {
  file_label : string;
  file_title : string;
  file_segments : list Segment
}.

Record FolderHeading : Type := mkFolderHeading {
  folder_label : string;
  folder_name : Path;
  folder_files : list FileHeading
}.

Definition Outline : Type := list FolderHeading.


(** The rows of the table of contents for an outline. *)
Definition toc_of_outline (o : Outline) : list (list string) :=
  flat_map
    (fun fh =>
       [folder_label fh +:+ " " +:+ folder_name fh]
       :: map (fun f => ["    " +:+ file_label f +:+ " " +:+ file_title f])
              (folder_files fh))
    o.




(** The numbering the code assigns at a prefix: the prefix directly
    followed by the position of the folder, then a dot and the position of
    the file (positions counted from 1). *)
Definition number_files (label : string) (start : nat)
    (files : list (string * list Segment)) : list FileHeading :=
  map (fun f : nat * (string * list Segment) =>
         mkFileHeading (label +:+ "." +:+ PyStr.str (fst f + 1))
                       (fst (snd f)) (snd (snd f)))
      (enumerate_from start files).

Definition number_folders (prefix : string) (start : nat) (g : FolderGroup)
  : Outline :=
  map (fun item : nat * (Path * list (string * list Segment)) =>
         let label := prefix +:+ PyStr.str (fst item + 1) in
         mkFolderHeading label (fst (snd item))
                         (number_files label 0 (snd (snd item))))
      (enumerate_from start g).

Definition numbering (prefix : string) (g : FolderGroup) : Outline :=
  number_folders prefix 0 g.

(** ** Whole-word marking *)

Fixpoint last_char (s : string) (prev : option ascii) : option ascii :=
  match s with
  | EmptyString => prev
  | String c s' => last_char s' (Some c)
  end.


(** What a candidate adds to the segment list. *)
Definition emit (c : candidate) : list Segment :=
  if PyStr.truthy (trimmed_payload c) then [(fst c, trimmed_payload c)] else [].

(** ** Sample inputs *)

Definition sample_declaration (t : string) : ET.Element :=
  ET.Elem "Declaration" [] (Some t) [].

Definition sample_implementation (t : string) : ET.Element :=
  ET.Elem "Implementation" [] None [ET.Elem "ST" [] (Some t) []].

Definition sample_method (n t : string) : ET.Element :=
  ET.Elem "Method" [("Name", n)] None [sample_declaration t].

(** A program unit with a declaration and an implementation. *)
Definition sample_main : ET.Element :=
  ET.Elem "POU" [("Name", "MAIN")] None
    [sample_declaration "VAR x : INT; END_VAR";
     sample_implementation "x := 1; // init"].

(** A data type whose declaration is blank. *)
Definition sample_blank : ET.Element :=
  ET.Elem "DUT" [("Name", "Point3D")] None [sample_declaration "  "].

(** A unit without a declaration of its own, with one method. *)
Definition sample_method_only : ET.Element :=
  ET.Elem "POU" [("Name", "FB")] None [sample_method "Run" "METHOD Run"].

(** A unit without a declaration of its own: a property, then a method. *)
Definition sample_property_first : ET.Element :=
  ET.Elem "POU" [("Name", "FB")] None
    [ET.Elem "Property" [("Name", "P")] None [sample_declaration "PROPERTY P : INT"];
     sample_method "Run" "METHOD Run"].

(** A unit without a declaration of its own, whose method declares nothing. *)
Definition sample_blank_method : ET.Element :=
  ET.Elem "POU" [("Name", "FB")] None [sample_method "Run" "   "].

Definition sample_parse (p : Path) : parsed :=
  if String.eqb p "in/POUs/Main.TcPOU" then Tree sample_main
  else if String.eqb p "in/POUs/Blank.TcDUT" then Tree sample_blank
  else ParseFailure "syntax error: line 1, column 0".

(** ** Auxiliary notions for the proofs *)

(** A mapping none of whose values is itself a mapping. *)
Definition flat (data : Dict) : Prop :=
  Forall (fun kv => is_dict (snd kv) = false) data.

(** The mapping that holds the given lists of entries. *)
Definition of_entries (d : list (Path * list entry)) : Dict :=
  map (fun kv => (fst kv, Files (snd kv))) d.

Definition is_raw (e : entry) : bool :=
  match e with RawPath _ => true | Extracted _ _ => false end.

(** Some folder holds a path that was not replaced. *)
Definition has_raw (d : list (Path * list entry)) : bool :=
  existsb (fun kv => existsb is_raw (snd kv)) d.

(** The entries the main loop leaves for the files of a folder. *)
Definition entries_of (parse : Path -> parsed) (files : list Path) : list entry :=
  map (fun file_path => snd (extract_entry parse file_path)) files.

(** A folder with one file that does not parse and one that does. *)
Definition sample_walk_bad (_ : Path) : list walk_entry :=
  [(".", ["notes.txt"]); ("POUs", ["Bad.TcPOU"; "Main.TcPOU"])].

(** A folder with one file whose only declaration is blank. *)
Definition sample_walk_blank (_ : Path) : list walk_entry :=
  [("POUs", ["Blank.TcDUT"])].

(** A folder with two files that both parse. *)
Definition sample_parse_two (p : Path) : parsed :=
  if String.eqb p "in/POUs/Other.TcPOU"
  then Tree (ET.Elem "POU" [("Name", "OTHER")] None
               [sample_declaration "VAR y : BOOL; END_VAR"])
  else sample_parse p.

Definition sample_walk_two (_ : Path) : list walk_entry :=
  [("POUs", ["Main.TcPOU"; "Other.TcPOU"])].

(** A folder without any file, and one without any TwinCAT file. *)
Definition sample_walk_empty (_ : Path) : list walk_entry := [(".", [])].

Definition sample_walk_no_match (_ : Path) : list walk_entry :=
  [(".", ["README.md"]); ("doc", ["notes.txt"; "plan.pdf"])].

Definition sample_argv : list string :=
  ["TwinCAT_To_PDF.py"; "in"; "out/report.pdf"].

(** A keyword without the caret: its pattern is made of literals. *)
Fixpoint plain (kw : string) : bool :=
  match kw with
  | EmptyString => true
  | String c kw' => negb (Ascii.eqb c "^") && plain kw'
  end.

(** ** Auxiliary notions for the further properties *)

(** The character [c] occurs in [s]. *)
Fixpoint has_char (c : ascii) (s : string) : bool :=
  match s with
  | EmptyString => false
  | String d s' => Ascii.eqb d c || has_char c s'
  end.

(** Every character of [s] is white space. *)
Fixpoint blank (s : string) : bool :=
  match s with
  | EmptyString => true
  | String c s' => PyStr.isspace c && blank s'
  end.


(** The TwinCAT files of one directory of the walk, as full paths, in the
    order of the directory listing. *)
Definition matching (input_folder : Path) (w : walk_entry) : list Path :=
  filter is_twincat_file
         (map (Path_join (if String.eqb (fst w) "." then input_folder
                          else Path_join input_folder (fst w)))
              (snd w)).

(** All files of a folder group, folder after folder. *)
Definition all_files {A : Type} (d : list (Path * list A)) : list A :=
  flat_map snd d.

(** What the collector keeps true while it runs: the folders are distinct,
    no folder is empty, every file is a TwinCAT file. *)
Definition well_collected (d : list (Path * list Path)) : Prop :=
  NoDup (map fst d)
  /\ Forall (fun kv => snd kv <> [] /\ Forall (fun p => is_twincat_file p = true) (snd kv)) d.

(** The inner loop of the collector, over the names of one directory. *)
Definition add_names (root folder_path : Path) (names : list string)
    (d : list (Path * list Path)) : list (Path * list Path) :=
  fold_left
    (fun files_by_folder file =>
       let file_path := Path_join root file in
       if is_twincat_file file_path
       then dict_append files_by_folder folder_path file_path
       else files_by_folder)
    names d.

(** The number of files of a collected group. *)
Definition total (d : list (Path * list Path)) : nat :=
  list_sum (map (fun kv => length (snd kv)) d).

(** A whole-word occurrence of [w] starts the text, [prev] being the
    character before it. *)
Definition whole_word_here (w : string) (prev : option ascii) (text : string)
  : Prop :=
  exists rest,
    text = w +:+ rest
    /\ Re.boundary prev (Re.head w) = true
    /\ Re.boundary (last_char w prev) (Re.head rest) = true.

(** [scanned w prev text out]: [out] is [text] read from left to right,
    every whole-word occurrence of [w] met on the way wrapped in the blue
    marker and the reading resumed after it, every other character copied. *)
Inductive scanned (w : string) : option ascii -> string -> string -> Prop :=
| sc_end prev :
    scanned w prev EmptyString EmptyString
| sc_copy prev c text out :
    ~ whole_word_here w prev (String c text) ->
    scanned w (Some c) text out ->
    scanned w prev (String c text) (String c out)
| sc_mark prev text out :
    w <> EmptyString ->
    Re.boundary prev (Re.head w) = true ->
    Re.boundary (last_char w prev) (Re.head text) = true ->
    scanned w (last_char w prev) text out ->
    scanned w prev (w +:+ text) (blue w +:+ out).



(** Some value of the mapping is itself a mapping. *)
Definition has_dict (data : Dict) : bool :=
  existsb (fun kv => is_dict (snd kv)) data.



(** The line the extractor prints for a file: none when it parses. *)
Definition error_lines (parse : Path -> parsed) (file_path : Path) : list string :=
  match parse file_path with
  | Tree _ => []
  | ParseFailure e => ["Error processing " +:+ file_path +:+ ": " +:+ e]
  end.

(** The proper descendants of an element, in document order. *)
Definition descendants (e : ET.Element) : list ET.Element := tl (ET.iter e).

(** A tree without any code block, as a task or I/O description has. *)
Definition sample_no_code : ET.Element :=
  ET.Elem "TcPlcObject" [("Version", "1.1.0.1")] None
    [ET.Elem "Task" [("Name", "PlcTask")] None
       [ET.Elem "CycleTime" [] (Some "10000") []]].

(** A unit without an implementation of its own, with one method that has
    a declaration and an implementation. *)
Definition sample_method_body : ET.Element :=
  ET.Elem "Method" [("Name", "Run")] None
    [sample_declaration "METHOD Run"; sample_implementation "x := 1;"].

Definition sample_method_unit : ET.Element :=
  ET.Elem "POU" [("Name", "FB")] None
    [sample_declaration "FUNCTION_BLOCK FB"; sample_method_body].

(** * Proofs *)

(** * Segment extraction: the canonical order *)

Lemma canonical_segments_emit (root : ET.Element) :
  canonical_segments root = flat_map emit (canonical_candidates root).
Proof.
  unfold canonical_segments.
  induction (canonical_candidates root) as [|c cs IH]; simpl; [reflexivity|].
  unfold emit at 1.
  destruct (PyStr.truthy (trimmed_payload c)); simpl; now rewrite IH.
Qed.

Lemma extract_cdata_falsy (t : string) :
  PyStr.truthy t = false -> extract_cdata t = None.
Proof. unfold extract_cdata; now intros ->. Qed.

Lemma append_segment_emit (label : string) (node : option ET.Element)
    (acc : list Segment) :
  append_segment label node acc = acc ++ emit (label, node).
Proof.
  unfold append_segment, emit, trimmed_payload, node_payload; simpl.
  destruct node as [e|]; [|now rewrite app_nil_r].
  destruct (ET.text e) as [t|]; [|now rewrite app_nil_r].
  destruct (PyStr.truthy t) eqn:Ht.
  - destruct (extract_cdata t) as [c|]; [|now rewrite app_nil_r].
    destruct (PyStr.truthy c); [reflexivity|now rewrite app_nil_r].
  - rewrite (extract_cdata_falsy t Ht); simpl. now rewrite app_nil_r.
Qed.

Lemma method_segments_emit (m : ET.Element) (acc : list Segment) :
  method_segments m acc = acc ++ flat_map emit (method_candidates m).
Proof.
  unfold method_segments, method_candidates; simpl.
  rewrite !append_segment_emit, app_nil_r, app_assoc. reflexivity.
Qed.

Lemma accessor_segments_emit (n which : string) (a : option ET.Element)
    (acc : list Segment) :
  accessor_segments n which a acc
  = acc ++ flat_map emit (accessor_candidates n which a).
Proof.
  unfold accessor_segments, accessor_candidates.
  destruct a as [a|]; simpl; [|now rewrite app_nil_r].
  rewrite !append_segment_emit, app_nil_r, app_assoc. reflexivity.
Qed.

Lemma property_segments_emit (p : ET.Element) (acc : list Segment) :
  property_segments p acc = acc ++ flat_map emit (property_candidates p).
Proof.
  unfold property_segments, property_candidates.
  rewrite !accessor_segments_emit, append_segment_emit.
  rewrite !flat_map_app; simpl. rewrite app_nil_r, !app_assoc. reflexivity.
Qed.

(** A loop that appends what each element emits is a [flat_map]. *)
Lemma fold_left_appending {A B : Type} (body : A -> list B -> list B)
    (f : A -> list B) (l : list A) (acc : list B) :
  (forall x acc, body x acc = acc ++ f x) ->
  fold_left (fun acc x => body x acc) l acc = acc ++ flat_map f l.
Proof.
  intros Hbody. revert acc.
  induction l as [|x l IH]; intros acc; simpl.
  - now rewrite app_nil_r.
  - rewrite IH, Hbody, app_assoc. reflexivity.
Qed.

Lemma flat_map_flat_map {A B C : Type} (f : B -> list C) (g : A -> list B)
    (l : list A) :
  flat_map f (flat_map g l) = flat_map (fun x => flat_map f (g x)) l.
Proof.
  induction l as [|x l IH]; simpl; [reflexivity|].
  now rewrite flat_map_app, IH.
Qed.

Lemma collect_segments_canonical (root : ET.Element) :
  collect_segments root = canonical_segments root.
Proof.
  rewrite canonical_segments_emit.
  unfold collect_segments, canonical_candidates.
  rewrite (fold_left_appending property_segments
             (fun p => flat_map emit (property_candidates p)))
    by apply property_segments_emit.
  rewrite (fold_left_appending method_segments
             (fun m => flat_map emit (method_candidates m)))
    by apply method_segments_emit.
  rewrite !append_segment_emit.
  rewrite !flat_map_app, !flat_map_flat_map.
  cbn [flat_map app]. rewrite !app_nil_r, <- !app_assoc. reflexivity.
Qed.



(** * The main declaration and the methods *)

Lemma emit_truthy (label : string) (node : option ET.Element) :
  PyStr.truthy (node_payload node) = true ->
  emit (label, node) = [(label, node_payload node)].
Proof. unfold emit, trimmed_payload; simpl. now intros ->. Qed.

(** C10, as the code has it. The main-declaration lookup takes the first
    Declaration element among all descendants, in document order. When that
    element is the declaration found for one of the unit's methods and its
    payload is not empty after trimming, the payload is the first segment,
    labelled "Declaration", and appears again later as that method's own
    declaration segment. *)
Theorem method_declaration_emitted_twice
    (root m d : ET.Element) :
  ET.find_desc "Declaration" root = Some d ->
  In m (ET.findall_desc "Method" root) ->
  ET.find_child "Declaration" m = Some d ->
  PyStr.truthy (node_payload (Some d)) = true ->
  hd_error (collect_segments root)
  = Some ("Declaration", node_payload (Some d))
  /\ In ("Method " +:+ ET.get (ET.attrib m) "Name" "Unknown" +:+ " Declaration",
         node_payload (Some d))
        (tl (collect_segments root)).
Proof.
  intros Hmain Hm Hdecl Hpay.
  rewrite collect_segments_canonical, canonical_segments_emit.
  unfold canonical_candidates. cbn [app flat_map].
  rewrite Hmain, (emit_truthy _ _ Hpay). cbn [app hd_error tl].
  split; [reflexivity|].
  apply in_or_app; right. rewrite flat_map_app. apply in_or_app; left.
  apply in_flat_map. exists ("Method " +:+ ET.get (ET.attrib m) "Name" "Unknown" +:+ " Declaration", Some d).
  split.
  - apply in_flat_map. exists m. split; [exact Hm|].
    unfold method_candidates. rewrite Hdecl. now left.
  - rewrite (emit_truthy _ _ Hpay). now left.
Qed.

Lemma method_declaration_emitted_twice_witness :
  (ET.find_desc "Declaration" sample_method_only
   = Some (sample_declaration "METHOD Run")
   /\ In (sample_method "Run" "METHOD Run")
         (ET.findall_desc "Method" sample_method_only)
   /\ ET.find_child "Declaration" (sample_method "Run" "METHOD Run")
      = Some (sample_declaration "METHOD Run")
   /\ PyStr.truthy (node_payload (Some (sample_declaration "METHOD Run"))) = true)
  /\ hd_error (collect_segments sample_method_only)
     = Some ("Declaration", "METHOD Run")
  /\ In ("Method Run Declaration", "METHOD Run")
        (tl (collect_segments sample_method_only)).
Proof.
  assert (H1 : ET.find_desc "Declaration" sample_method_only
               = Some (sample_declaration "METHOD Run")) by reflexivity.
  assert (H2 : In (sample_method "Run" "METHOD Run")
                  (ET.findall_desc "Method" sample_method_only))
    by (simpl; auto).
  assert (H3 : ET.find_child "Declaration" (sample_method "Run" "METHOD Run")
               = Some (sample_declaration "METHOD Run")) by reflexivity.
  assert (H4 : PyStr.truthy (node_payload (Some (sample_declaration "METHOD Run")))
               = true) by reflexivity.
  split; [repeat split; assumption|].
  exact (method_declaration_emitted_twice sample_method_only
           (sample_method "Run" "METHOD Run")
           (sample_declaration "METHOD Run") H1 H2 H3 H4).
Defined.

(** C10, as stated, fails. A unit with no Declaration child of its own and
    a method that has one: when a property comes first, the main segment is
    the property's declaration and not the method's; when the method's
    declaration is blank, nothing is emitted at all. *)
Lemma method_declaration_not_main :
  (ET.find_child "Declaration" sample_property_first = None
   /\ In (sample_method "Run" "METHOD Run")
         (ET.findall_desc "Method" sample_property_first)
   /\ ET.find_child "Declaration" (sample_method "Run" "METHOD Run")
      = Some (sample_declaration "METHOD Run")
   /\ hd_error (collect_segments sample_property_first)
      = Some ("Declaration", "PROPERTY P : INT")
   /\ ~ In ("Declaration", "METHOD Run") (collect_segments sample_property_first))
  /\
  (ET.find_child "Declaration" sample_blank_method = None
   /\ In (sample_method "Run" "   ")
         (ET.findall_desc "Method" sample_blank_method)
   /\ ET.find_child "Declaration" (sample_method "Run" "   ")
      = Some (sample_declaration "   ")
   /\ collect_segments sample_blank_method = []).
Proof.
  split.
  - repeat split; try reflexivity.
    + simpl; auto.
    + cbv. intros [H|[H|[H|[]]]]; discriminate H.
  - repeat split; try reflexivity. simpl; auto.
Qed.

(** * Loops over a flat mapping *)

Lemma enumerate_from_cons {A : Type} (k : nat) (x : A) (l : list A) :
  enumerate_from k (x :: l) = (k, x) :: enumerate_from (S k) l.
Proof. reflexivity. Qed.

Lemma enumerate_from_map {A B : Type} (f : A -> B) (k : nat) (l : list A) :
  enumerate_from k (map f l)
  = map (fun item => (fst item, f (snd item))) (enumerate_from k l).
Proof.
  revert k. induction l as [|x l IH]; intros k; [reflexivity|].
  cbn [map]. rewrite !enumerate_from_cons. cbn [map fst snd].
  now rewrite IH.
Qed.

Lemma flat_of_entries (d : list (Path * list entry)) : flat (of_entries d).
Proof.
  unfold flat, of_entries. apply Forall_forall. intros kv Hin.
  apply in_map_iff in Hin. destruct Hin as [x [<- _]]. reflexivity.
Qed.

Section FlatData.

Context {S : Type}.
Variable call : Dict -> string -> S -> result S.

Lemma subfolders_flat (data : Dict) (folder_label : string) (s : S) :
  flat data -> subfolders call data folder_label s = Ok s.
Proof.
  intros Hflat. unfold subfolders.
  assert (H : forall n,
             for_each
               (fun (sub : Path * value) (st : S * nat) =>
                  let '(subfolder, subfiles) := sub in
                  let '(s, subfolder_index) := st in
                  if is_dict subfiles then
                    s <- call [(subfolder, subfiles)]
                              (folder_label +:+ "." +:+ PyStr.str subfolder_index) s ;;
                    Ok (s, subfolder_index + 1)
                  else Ok (s, subfolder_index))
               data (s, n) = Ok (s, n)).
  { induction Hflat as [|[subfolder subfiles] data Hx _ IH]; intros n.
    - reflexivity.
    - cbn [for_each]. simpl in Hx. rewrite Hx. cbn [bind]. apply IH. }
  now rewrite H.
Qed.

End FlatData.

(** ** A path left in a list stops either pass *)

Lemma toc_files_extracted (folder_label : string) (l : list entry)
    (st : list (list string) * nat) :
  forallb (fun e => negb (is_raw e)) l = true ->
  exists st', for_each (toc_file folder_label) l st = Ok st'.
Proof.
  revert st. induction l as [|e l IH]; intros [toc j] H.
  - now eexists.
  - cbn [forallb] in H. apply andb_prop in H. destruct H as [He Hl].
    destruct e as [p|title segs]; [discriminate He|].
    cbn [for_each toc_file unpack bind]. apply IH, Hl.
Qed.

Lemma toc_files_raw (folder_label : string) (l : list entry)
    (st : list (list string) * nat) :
  existsb is_raw l = true ->
  for_each (toc_file folder_label) l st = Raise TypeError.
Proof.
  revert st. induction l as [|e l IH]; intros [toc j] H; [discriminate H|].
  destruct e as [p|title segs].
  - reflexivity.
  - cbn [for_each toc_file unpack bind]. apply IH. exact H.
Qed.

Lemma existsb_forallb_negb {A : Type} (f : A -> bool) (l : list A) :
  existsb f l = false -> forallb (fun x => negb (f x)) l = true.
Proof.
  induction l as [|x l IH]; [reflexivity|]. cbn.
  destruct (f x); [discriminate|]. exact IH.
Qed.

Lemma toc_folders_raw
    (call : Dict -> string -> list (list string) -> result (list (list string)))
    (data : Dict) (prefix : string) (d : list (Path * list entry)) :
  flat data ->
  has_raw d = true ->
  forall k toc,
    for_each (toc_folder call data prefix) (enumerate_from k (of_entries d)) toc
    = Raise TypeError.
Proof.
  intros Hflat. induction d as [|[folder entries] d IH]; intros H k toc.
  - discriminate H.
  - cbn [of_entries map fst snd]. rewrite enumerate_from_cons.
    cbn [for_each toc_folder iterate].
    destruct (existsb is_raw entries) eqn:Hraw.
    + now rewrite toc_files_raw.
    + destruct (toc_files_extracted (prefix +:+ PyStr.str (k + 1)) entries
                  (toc ++ [[(prefix +:+ PyStr.str (k + 1)) +:+ " " +:+ folder]], 1)
                  (existsb_forallb_negb _ _ Hraw)) as [st' ->].
      cbn [bind]. rewrite subfolders_flat by exact Hflat. cbn [bind].
      apply IH. unfold has_raw in H. cbn [existsb snd] in H.
      rewrite Hraw in H. exact H.
Qed.

Lemma add_to_toc_raw (limit : nat) (d : list (Path * list entry))
    (prefix : string) (toc : list (list string)) :
  has_raw d = true ->
  add_to_toc (S limit) (of_entries d) prefix toc = Raise TypeError.
Proof.
  intros H. cbn [add_to_toc].
  apply (toc_folders_raw _ _ _ d (flat_of_entries d) H 0).
Qed.

Lemma generate_pdf_raw (limit : nat) (d : list (Path * list entry))
    (output_pdf : string) :
  has_raw d = true ->
  generate_pdf (S limit) (of_entries d) output_pdf = Raise TypeError.
Proof.
  intros H. unfold generate_pdf. now rewrite add_to_toc_raw.
Qed.

(** ** The main loop *)

Lemma fold_left_same {A B : Type} (f g : A -> B -> A) (l : list B) (a : A) :
  (forall a x, f a x = g a x) -> fold_left f l a = fold_left g l a.
Proof.
  intros H. revert a. induction l as [|x l IH]; intros a; cbn; [reflexivity|].
  now rewrite H, IH.
Qed.

Lemma fold_left_pair {A B C : Type} (f : A -> list B * C) (l : list A)
    (out : list B) (done : list C) :
  fold_left (fun (acc : list B * list C) x =>
               (fst acc ++ fst (f x), snd acc ++ [snd (f x)]))
            l (out, done)
  = (out ++ flat_map (fun x => fst (f x)) l, done ++ map (fun x => snd (f x)) l).
Proof.
  revert out done. induction l as [|x l IH]; intros out done; cbn.
  - now rewrite !app_nil_r.
  - rewrite IH, <- !app_assoc. reflexivity.
Qed.

Lemma extract_folder_entries (parse : Path -> parsed) (files : list Path) :
  snd (extract_folder parse files) = entries_of parse files.
Proof.
  unfold extract_folder.
  rewrite (fold_left_same _
             (fun (acc : list string * list entry) x =>
                (fst acc ++ fst (extract_entry parse x),
                 snd acc ++ [snd (extract_entry parse x)]))).
  - now rewrite fold_left_pair.
  - intros acc x. now destruct (extract_entry parse x).
Qed.

Lemma extract_all_entries (parse : Path -> parsed) (d : list (Path * list Path)) :
  snd (extract_all parse d)
  = of_entries (map (fun kv => (fst kv, entries_of parse (snd kv))) d).
Proof.
  unfold extract_all, Dict.
  pose (f := fun kv : Path * list Path =>
               (fst (extract_folder parse (snd kv)),
                (fst kv, Files (snd (extract_folder parse (snd kv)))))).
  rewrite (fold_left_same _
             (fun (acc : list string * list (Path * value)) x =>
                (fst acc ++ fst (f x), snd acc ++ [snd (f x)]))).
  - rewrite (fold_left_pair f d [] []). cbn [snd app]. unfold of_entries.
    rewrite map_map. apply map_ext.
    intros [folder files]. unfold f. cbn [fst snd].
    now rewrite extract_folder_entries.
  - intros acc [folder files]. unfold f. cbn [fst snd].
    now destruct (extract_folder parse files).
Qed.

(** * Highlighting *)

Lemma append_assoc (a b c : string) : (a +:+ b) +:+ c = a +:+ (b +:+ c).
Proof. induction a as [|x a IH]; cbn; [reflexivity|now rewrite IH]. Qed.

Lemma append_empty_r (a : string) : a +:+ EmptyString = a.
Proof. induction a as [|x a IH]; cbn; [reflexivity|now rewrite IH]. Qed.

Lemma length_append (a b : string) :
  String.length (a +:+ b) = String.length a + String.length b.
Proof. induction a as [|x a IH]; cbn; [reflexivity|now rewrite IH]. Qed.

Section Matching.

Import Re.

(** A pattern of literals matches exactly its own text. *)
Lemma match_here_plain (kw : string) (q : list item) :
  plain kw = true ->
  forall prev s m r,
    match_here (items_of_string kw ++ q) prev s = Some (m, r) ->
    exists s' m',
      s = kw +:+ s' /\ m = kw +:+ m' /\
      match_here q (last_char kw prev) s' = Some (m', r).
Proof.
  induction kw as [|c kw IH]; intros Hplain prev s m r H.
  - exists s, m. now repeat split.
  - cbn [plain] in Hplain. apply andb_prop in Hplain.
    destruct Hplain as [Hc Hkw].
    cbn [items_of_string app] in H. unfold item_of_char in H.
    destruct (Ascii.eqb c "^"); [discriminate Hc|].
    cbn [match_here] in H.
    destruct s as [|d s1]; [discriminate H|].
    destruct (Ascii.eqb c d) eqn:Hcd; [|discriminate H].
    apply Ascii.eqb_eq in Hcd. subst d.
    destruct (match_here (items_of_string kw ++ q) (Some c) s1)
      as [[m1 r1]|] eqn:Hrest; [|discriminate H].
    injection H as <- <-.
    destruct (IH Hkw _ _ _ _ Hrest) as [s' [m' [-> [-> Hq]]]].
    exists s', m'. now repeat split.
Qed.

(** A match of the pattern of a keyword: the keyword itself, between two
    word boundaries. *)
Lemma match_word_pattern (kw : string) :
  plain kw = true ->
  forall prev s m r,
    match_here (word_pattern kw) prev s = Some (m, r) ->
    s = kw +:+ r /\ m = kw /\
    boundary prev (head s) = true /\
    boundary (last_char kw prev) (head r) = true.
Proof.
  intros Hplain prev s m r H. unfold word_pattern in H.
  cbn [match_here] in H.
  destruct (boundary prev (head s)) eqn:Hb; [|discriminate H].
  destruct (match_here_plain kw [WordB] Hplain _ _ _ _ H)
    as [s' [m' [Hs [Hm Hq]]]].
  cbn [match_here] in Hq.
  destruct (boundary (last_char kw prev) (head s')) eqn:Hb'; [|discriminate Hq].
  injection Hq as <- <-.
  rewrite append_empty_r in Hm. now repeat split.
Qed.

(** Once a character was read, a later caret cannot match. *)
Lemma match_here_caret (p q : list item) (d : ascii) (s : string) :
  match_here (p ++ Bol :: q) (Some d) s = None.
Proof.
  revert d s. induction p as [|i p IH]; intros d s; [reflexivity|].
  destruct i as [c| |]; cbn [app match_here].
  - destruct s as [|e s]; [reflexivity|].
    destruct (Ascii.eqb c e); [|reflexivity]. now rewrite IH.
  - reflexivity.
  - destruct (boundary (Some d) (head s)); [apply IH|reflexivity].
Qed.

Lemma match_this_caret (prev : option ascii) (s : string) :
  match_here (word_pattern "THIS^") prev s = None.
Proof.
  change (word_pattern "THIS^")
    with (WordB :: Lit "T" :: [Lit "H"; Lit "I"; Lit "S"] ++ Bol :: [WordB]).
  change (match_here (WordB :: ?p) prev s)
    with (if boundary prev (head s) then match_here p prev s else None).
  destruct (boundary prev (head s)); [|reflexivity].
  destruct s as [|e s]; [reflexivity|].
  change (match_here (Lit "T" :: ?p) prev (String e s))
    with (if Ascii.eqb "T" e
          then match match_here p (Some e) s with
               | Some (m, r) => Some (String e m, r)
               | None => None
               end
          else None).
  rewrite match_here_caret. now destruct (Ascii.eqb "T" e).
Qed.

Variable repl : string -> string.

(** Passing over the rest of a match. *)
Lemma sub_scan_skip (p : list item) (a : string) :
  forall prev r,
    sub_scan p repl prev (String.length a) (a +:+ r)
    = sub_scan p repl (last_char a prev) 0 r.
Proof.
  induction a as [|c a IH]; intros prev r; [reflexivity|].
  cbn [String.length String.append sub_scan last_char]. apply IH.
Qed.

Lemma sub_scan_no_match (p : list item) :
  (forall prev s, match_here p prev s = None) ->
  forall prev s, sub_scan p repl prev 0 s = s.
Proof.
  intros Hnone prev s. revert prev.
  induction s as [|c s IH]; intros prev; cbn [sub_scan].
  - now rewrite Hnone.
  - now rewrite Hnone, IH.
Qed.

End Matching.


Lemma head_append (w s : string) :
  w <> EmptyString -> Re.head (w +:+ s) = Re.head w.
Proof. destruct w; [congruence|reflexivity]. Qed.


Lemma keywords_plain_or_caret :
  forallb (fun kw => (plain kw && PyStr.truthy kw) || String.eqb kw "THIS^")
          keywords = true.
Proof. vm_compute. reflexivity. Qed.

Lemma truthy_nonempty (s : string) : PyStr.truthy s = true -> s <> EmptyString.
Proof. destruct s; [discriminate|congruence]. Qed.


(** C4, on the code. In a line with a comment both parts are taken from the
    line as read, not from the escaped line: the characters < and & reach
    the output as they are, where the same code without a comment has them
    escaped. *)
Theorem comment_line_not_escaped :
  render_line "IF a < b THEN // a & b"
  = Paragraph (blue "IF" +:+ " a < b " +:+ blue "THEN" +:+ " " +:+ green " a & b")
              CodeStyle
  /\ render_line "IF a < b THEN"
     = Paragraph (blue "IF" +:+ " a &lt; b " +:+ blue "THEN") CodeStyle
  /\ escape "IF a < b THEN // a & b" = "IF a &lt; b THEN // a &amp; b".
Proof. repeat split; vm_compute; reflexivity. Qed.

(** * Numbering: the table of contents and the body *)

Lemma flat_of_group (g : FolderGroup) : flat (of_group g).
Proof.
  unfold flat, of_group. apply Forall_forall. intros kv Hin.
  apply in_map_iff in Hin. destruct Hin as [x [<- _]]. reflexivity.
Qed.


Section TableOfContents.

Variable call :
  Dict -> string -> list (list string) -> result (list (list string)).
Variable data : Dict.
Hypothesis data_flat : flat data.

Lemma toc_files_rows (label : string) (files : list (string * list Segment)) :
  forall start toc,
    for_each (toc_file label)
             (map (fun f => Extracted (fst f) (snd f)) files) (toc, start + 1)
    = Ok (toc ++ map (fun f => ["    " +:+ file_label f +:+ " " +:+ file_title f])
                     (number_files label start files),
          start + length files + 1).
Proof.
  induction files as [|[title segs] files IH]; intros start toc.
  - cbn. now rewrite app_nil_r, Nat.add_0_r.
  - cbn [map fst snd for_each toc_file unpack bind].
    replace (start + 1 + 1) with (S start + 1) by lia.
    rewrite IH. unfold number_files. rewrite enumerate_from_cons.
    cbn [map fst snd file_label file_title length].
    rewrite <- app_assoc. cbn [app].
    replace (S start + length files + 1) with (start + S (length files) + 1)
      by lia.
    rewrite !append_assoc. reflexivity.
Qed.

Lemma toc_folders_rows (prefix : string) (g : FolderGroup) :
  forall start toc,
    for_each (toc_folder call data prefix) (enumerate_from start (of_group g)) toc
    = Ok (toc ++ toc_of_outline (number_folders prefix start g)).
Proof.
  induction g as [|[folder files] g IH]; intros start toc.
  - cbn. now rewrite app_nil_r.
  - cbn [of_group map fst snd]. rewrite enumerate_from_cons.
    cbn [for_each toc_folder iterate].
    rewrite (toc_files_rows _ files 0). cbn [bind fst].
    rewrite (subfolders_flat call data _ _ data_flat). cbn [bind].
    fold (of_group g). rewrite IH.
    unfold number_folders. rewrite enumerate_from_cons.
    cbn [map fst snd toc_of_outline flat_map folder_label folder_name folder_files].
    rewrite <- !app_assoc. reflexivity.
Qed.

End TableOfContents.

Lemma add_to_toc_rows (limit : nat) (g : FolderGroup) (prefix : string)
    (toc : list (list string)) :
  add_to_toc (S limit) (of_group g) prefix toc
  = Ok (toc ++ toc_of_outline (numbering prefix g)).
Proof.
  cbn [add_to_toc].
  apply (toc_folders_rows _ _ (flat_of_group g) prefix g 0).
Qed.


Section Body.

Variable call : Dict -> string -> list Flowable -> result (list Flowable).
Variable data : Dict.
Hypothesis data_flat : flat data.



End Body.












(** * Files the main loop does not replace *)

Lemma extract_entry_failure (parse : Path -> parsed) (file_path : Path)
    (message : string) :
  parse file_path = ParseFailure message ->
  extract_entry parse file_path
  = (["Error processing " +:+ file_path +:+ ": " +:+ message], RawPath file_path).
Proof.
  intros H. unfold extract_entry, extract_twincat_code. now rewrite H.
Qed.

Lemma extract_entry_no_segments (parse : Path -> parsed) (file_path : Path)
    (root : ET.Element) :
  parse file_path = Tree root ->
  collect_segments root = [] ->
  extract_entry parse file_path = ([], RawPath file_path).
Proof.
  intros H Hnil. unfold extract_entry, extract_twincat_code.
  rewrite H, Hnil. cbn. now rewrite andb_false_r.
Qed.

Lemma has_raw_intro (d : list (Path * list entry)) (folder : Path)
    (entries : list entry) (p : Path) :
  In (folder, entries) d -> In (RawPath p) entries -> has_raw d = true.
Proof.
  intros Hd He. unfold has_raw. apply existsb_exists.
  exists (folder, entries). split; [exact Hd|].
  apply existsb_exists. exists (RawPath p). now split.
Qed.

Lemma main_raw (limit : nat) (walk : Path -> list walk_entry)
    (parse : Path -> parsed) (script input_folder output_pdf : string)
    (rest : list string) :
  has_raw (map (fun kv => (fst kv, entries_of parse (snd kv)))
               (collect_files (walk input_folder) input_folder)) = true ->
  document (main (S limit) walk parse (script :: input_folder :: output_pdf :: rest))
  = None
  /\ status (main (S limit) walk parse (script :: input_folder :: output_pdf :: rest))
     = 1.
Proof.
  intros H. unfold main.
  pose proof (extract_all_entries parse
                (collect_files (walk input_folder) input_folder)) as Hall.
  destruct (extract_all parse (collect_files (walk input_folder) input_folder))
    as [printed data].
  cbn [snd] in Hall. subst data.
  rewrite (generate_pdf_raw limit _ output_pdf H). now split.
Qed.

(** C9. A file that parses but yields no segment keeps its raw path in the
    folder group after the main loop, at the place it had, and the
    rendering then stops with a type error: no document, exit status 1. *)
Theorem empty_segment_list_aborts_run
    (limit : nat) (walk : Path -> list walk_entry) (parse : Path -> parsed)
    (script input_folder output_pdf : string) (rest : list string)
    (k i : nat) (folder : Path) (files : list Path) (file_path : Path)
    (root : ET.Element) :
  nth_error (collect_files (walk input_folder) input_folder) k
  = Some (folder, files) ->
  nth_error files i = Some file_path ->
  parse file_path = Tree root ->
  collect_segments root = [] ->
  let argv := script :: input_folder :: output_pdf :: rest in
  let data :=
    snd (extract_all parse (collect_files (walk input_folder) input_folder)) in
  (exists entries,
      nth_error data k = Some (folder, Files entries) /\
      nth_error entries i = Some (RawPath file_path))
  /\ generate_pdf (S limit) data output_pdf = Raise TypeError
  /\ document (main (S limit) walk parse argv) = None
  /\ status (main (S limit) walk parse argv) = 1.
Proof.
  intros Hk Hi Hparse Hnil argv data.
  assert (Hentry : nth_error (entries_of parse files) i = Some (RawPath file_path)).
  { unfold entries_of. rewrite nth_error_map, Hi. cbn.
    now rewrite (extract_entry_no_segments parse file_path root Hparse Hnil). }
  assert (Hraw : has_raw (map (fun kv => (fst kv, entries_of parse (snd kv)))
                              (collect_files (walk input_folder) input_folder))
                 = true).
  { apply (has_raw_intro _ folder (entries_of parse files) file_path).
    - apply in_map_iff. exists (folder, files). split; [reflexivity|].
      eapply nth_error_In, Hk.
    - eapply nth_error_In, Hentry. }
  subst data. rewrite extract_all_entries.
  split; [|split].
  - exists (entries_of parse files). split; [|exact Hentry].
    unfold of_entries. rewrite !nth_error_map, Hk. reflexivity.
  - now apply generate_pdf_raw.
  - now apply main_raw.
Qed.

Lemma empty_segment_list_aborts_run_witness :
  (nth_error (collect_files (sample_walk_blank "in") "in") 0
   = Some ("POUs", ["in/POUs/Blank.TcDUT"])
   /\ nth_error ["in/POUs/Blank.TcDUT"] 0 = Some "in/POUs/Blank.TcDUT"
   /\ sample_parse "in/POUs/Blank.TcDUT" = Tree sample_blank
   /\ collect_segments sample_blank = [])
  /\ (exists entries,
        nth_error (snd (extract_all sample_parse
                          (collect_files (sample_walk_blank "in") "in"))) 0
        = Some ("POUs", Files entries) /\
        nth_error entries 0 = Some (RawPath "in/POUs/Blank.TcDUT"))
  /\ generate_pdf 1000
       (snd (extract_all sample_parse
               (collect_files (sample_walk_blank "in") "in")))
       "out/report.pdf" = Raise TypeError
  /\ document (main 1000 sample_walk_blank sample_parse sample_argv) = None
  /\ status (main 1000 sample_walk_blank sample_parse sample_argv) = 1.
Proof.
  assert (H1 : nth_error (collect_files (sample_walk_blank "in") "in") 0
               = Some ("POUs", ["in/POUs/Blank.TcDUT"])) by reflexivity.
  assert (H2 : nth_error ["in/POUs/Blank.TcDUT"] 0 = Some "in/POUs/Blank.TcDUT")
    by reflexivity.
  assert (H3 : sample_parse "in/POUs/Blank.TcDUT" = Tree sample_blank)
    by reflexivity.
  assert (H4 : collect_segments sample_blank = []) by reflexivity.
  split; [repeat split; assumption|].
  exact (empty_segment_list_aborts_run 999 sample_walk_blank sample_parse
           "TwinCAT_To_PDF.py" "in" "out/report.pdf" []
           0 0 "POUs" ["in/POUs/Blank.TcDUT"] "in/POUs/Blank.TcDUT" sample_blank
           H1 H2 H3 H4).
Defined.

(** C1, on the code. One file of the folder does not parse: the error line
    is printed and the path stays in the list, where the table of contents
    pass fails to unpack it; the run ends without a document, with exit
    status 1, and the file that did parse is not rendered either. *)
Theorem failed_extraction_aborts_run :
  main 1000 sample_walk_bad sample_parse sample_argv
  = mkOutcome
      ["Found 2 TwinCAT files";
       "Error processing in/POUs/Bad.TcPOU: syntax error: line 1, column 0"]
      1 None
  /\ snd (extract_all sample_parse (collect_files (sample_walk_bad "in") "in"))
     = [("POUs",
         Files [RawPath "in/POUs/Bad.TcPOU";
                Extracted "POU: MAIN "
                  [("Declaration", "VAR x : INT; END_VAR");
                   ("Implementation", "x := 1; // init")]])]
  /\ generate_pdf 1000
       (snd (extract_all sample_parse (collect_files (sample_walk_bad "in") "in")))
       "out/report.pdf"
     = Raise TypeError.
Proof. repeat split; vm_compute; reflexivity. Qed.

(** C8, on the code. For a folder without files the run prints that it
    found 0 files and then stops where the table of contents is built from
    no rows: no document, exit status 1. *)
Theorem empty_folder_aborts_run
    (limit : nat) (parse : Path -> parsed)
    (script input_folder output_pdf : string) (rest : list string) :
  collect_files (sample_walk_empty input_folder) input_folder = []
  /\ generate_pdf (S limit) [] output_pdf = Raise ValueError
  /\ main (S limit) sample_walk_empty parse
          (script :: input_folder :: output_pdf :: rest)
     = mkOutcome ["Found 0 TwinCAT files"] 1 None.
Proof. repeat split. Qed.

(** C6, on the code. One folder with two files: the console reports two
    files, the title page reports the number of folders, 1. *)
Theorem title_page_counts_folders :
  exists body,
    main 1000 sample_walk_two sample_parse_two sample_argv
    = mkOutcome
        ["Found 2 TwinCAT files"; "PDF generated successfully: out/report.pdf"]
        0
        (Some (Spacer cm_5
               :: Paragraph "TwinCAT PLC PDF Auto-Gen" Title
               :: Spacer cm_1
               :: Paragraph "Generated on: out" Normal
               :: Paragraph "Total files: 1" Normal
               :: PageBreak
               :: body)).
Proof. eexists. vm_compute. reflexivity. Qed.

(** * The whole document *)


(** Without a matching file the run stops at the table of contents. *)
Lemma main_no_files (limit : nat) (walk : Path -> list walk_entry)
    (parse : Path -> parsed) (script input_folder output_pdf : string)
    (rest : list string) :
  collect_files (walk input_folder) input_folder = [] ->
  main (S limit) walk parse (script :: input_folder :: output_pdf :: rest)
  = mkOutcome ["Found 0 TwinCAT files"] 1 None.
Proof. intros H. unfold main. rewrite H. reflexivity. Qed.

(** A file that does not parse stops the run, whatever the other files. *)
Lemma parse_failure_stops_rendering
    (limit : nat) (walk : Path -> list walk_entry) (parse : Path -> parsed)
    (script input_folder output_pdf : string) (rest : list string)
    (folder : Path) (files : list Path) (file_path : Path) (message : string) :
  In (folder, files) (collect_files (walk input_folder) input_folder) ->
  In file_path files ->
  parse file_path = ParseFailure message ->
  document (main (S limit) walk parse (script :: input_folder :: output_pdf :: rest))
  = None
  /\ status (main (S limit) walk parse (script :: input_folder :: output_pdf :: rest))
     = 1.
Proof.
  intros Hd Hf Hparse. apply main_raw.
  apply (has_raw_intro _ folder (entries_of parse files) file_path).
  - apply in_map_iff. now exists (folder, files).
  - unfold entries_of. apply in_map_iff. exists file_path. split; [|exact Hf].
    now rewrite (extract_entry_failure parse file_path message Hparse).
Qed.

(** * Further properties: strings and payloads *)

Lemma prefix_append (n r : string) : String.prefix n (n +:+ r) = true.
Proof.
  induction n as [|c n IH]; cbn; [now destruct r|].
  destruct (ascii_dec c c) as [_|Hc]; [exact IH|congruence].
Qed.

Lemma drop_length_append (n r : string) :
  PyStr.drop (String.length n) (n +:+ r) = r.
Proof. induction n as [|c n IH]; cbn; [now destruct r|exact IH]. Qed.

Lemma prefix_split (n s : string) :
  String.prefix n s = true -> s = n +:+ PyStr.drop (String.length n) s.
Proof.
  revert s. induction n as [|c n IH]; intros s H.
  - now destruct s.
  - destruct s as [|d s]; [discriminate H|]. cbn in H.
    destruct (ascii_dec c d) as [->|_]; [|discriminate H].
    cbn. f_equal. apply IH, H.
Qed.

(** [split_first] cuts the text around an occurrence of the needle. *)
Lemma split_first_parts (needle : string) :
  forall s a b,
    PyStr.split_first needle s = Some (a, b) -> s = a +:+ needle +:+ b.
Proof.
  induction s as [|c s IH]; intros a b H.
  - destruct needle; cbn in H; [|discriminate H].
    now injection H as <- <-.
  - cbn [PyStr.split_first] in H.
    destruct (String.prefix needle (String c s)) eqn:Hp.
    + injection H as <- <-. apply (prefix_split _ _ Hp).
    + destruct (PyStr.split_first needle s) as [[a' b']|] eqn:Hs;
        [|discriminate H].
      injection H as <- <-. cbn. f_equal. apply IH. reflexivity.
Qed.

Lemma prefix_head_differs (c d : ascii) (n s : string) :
  Ascii.eqb d c = false -> String.prefix (String c n) (String d s) = false.
Proof.
  intros H. cbn. destruct (ascii_dec c d) as [->|_]; [|reflexivity].
  now rewrite Ascii.eqb_refl in H.
Qed.

(** Before the first character of the needle occurs, the needle does not. *)
Lemma split_first_after (c : ascii) (n pre rest : string) :
  has_char c pre = false ->
  PyStr.split_first (String c n) (pre +:+ String c n +:+ rest) = Some (pre, rest).
Proof.
  induction pre as [|d pre IH]; intros H.
  - cbn [String.append PyStr.split_first].
    change (String c (n +:+ rest)) with (String c n +:+ rest).
    now rewrite prefix_append, drop_length_append.
  - cbn in H. apply orb_false_elim in H. destruct H as [Hd Hpre].
    specialize (IH Hpre). cbn [String.append] in IH |- *.
    cbn [PyStr.split_first].
    rewrite (prefix_head_differs c d _ _ Hd), IH. reflexivity.
Qed.

Lemma split_first_absent (c : ascii) (n s : string) :
  has_char c s = false -> PyStr.split_first (String c n) s = None.
Proof.
  induction s as [|d s IH]; intros H; [reflexivity|].
  cbn in H. apply orb_false_elim in H. destruct H as [Hd Hs].
  cbn [PyStr.split_first].
  now rewrite (prefix_head_differs c d _ _ Hd), (IH Hs).
Qed.

Lemma contains_char (c : ascii) (s : string) :
  PyStr.contains (String c EmptyString) s = has_char c s.
Proof.
  unfold PyStr.contains. induction s as [|d s IH]; [reflexivity|].
  cbn [PyStr.split_first has_char]. cbn [String.prefix].
  destruct (ascii_dec c d) as [->|Hne].
  - rewrite Ascii.eqb_refl. now destruct s.
  - destruct (Ascii.eqb d c) eqn:Hd.
    + apply Ascii.eqb_eq in Hd. congruence.
    + cbn [orb]. rewrite <- IH.
      now destruct (PyStr.split_first (String c EmptyString) s) as [[a b]|].
Qed.

(** ** Trimming *)

Lemma lstrip_blank (s : string) : blank s = true -> PyStr.lstrip s = EmptyString.
Proof.
  induction s as [|c s IH]; intros H; [reflexivity|].
  cbn in H. apply andb_prop in H. destruct H as [Hc Hs].
  cbn. rewrite Hc. apply IH, Hs.
Qed.

Lemma lstrip_empty_blank (s : string) :
  PyStr.lstrip s = EmptyString -> blank s = true.
Proof.
  induction s as [|c s IH]; intros H; [reflexivity|].
  cbn in H. cbn. destruct (PyStr.isspace c); [apply IH, H|discriminate H].
Qed.




Lemma rstrip_idempotent (s : string) :
  PyStr.rstrip (PyStr.rstrip s) = PyStr.rstrip s.
Proof.
  induction s as [|c s IH]; [reflexivity|].
  cbn. destruct (PyStr.rstrip s) as [|d r] eqn:Hr.
  - destruct (PyStr.isspace c) eqn:Hc; [reflexivity|].
    cbn. now rewrite Hc.
  - cbn [PyStr.rstrip]. cbn [PyStr.rstrip] in IH. now rewrite IH.
Qed.

(** Trimming on the right keeps a first character that is not white. *)
Lemma lstrip_rstrip_lstrip (s : string) :
  PyStr.lstrip (PyStr.rstrip (PyStr.lstrip s)) = PyStr.rstrip (PyStr.lstrip s).
Proof.
  induction s as [|c s IH]; [reflexivity|].
  cbn [PyStr.lstrip]. destruct (PyStr.isspace c) eqn:Hc; [exact IH|].
  cbn [PyStr.rstrip].
  destruct (PyStr.rstrip s) as [|d r]; rewrite ?Hc; cbn [PyStr.lstrip];
    now rewrite Hc.
Qed.

Lemma strip_idempotent (s : string) : PyStr.strip (PyStr.strip s) = PyStr.strip s.
Proof.
  unfold PyStr.strip. now rewrite lstrip_rstrip_lstrip, rstrip_idempotent.
Qed.

Lemma truthy_append_r (a b : string) :
  PyStr.truthy b = true -> PyStr.truthy (a +:+ b) = true.
Proof. destruct a; [trivial|reflexivity]. Qed.

Lemma extract_cdata_trimmed (t r : string) :
  extract_cdata t = Some r -> PyStr.strip r = r.
Proof.
  unfold extract_cdata. destruct (PyStr.truthy t); [|discriminate].
  destruct (cdata_search t); intros H; injection H as <-;
    apply strip_idempotent.
Qed.

(** ** The CDATA envelope *)

Lemma contains_cons_false (needle : string) (c : ascii) (s : string) :
  PyStr.contains needle (String c s) = false ->
  String.prefix needle (String c s) = false /\ PyStr.contains needle s = false.
Proof.
  unfold PyStr.contains. cbn [PyStr.split_first].
  destruct (String.prefix needle (String c s)); [discriminate|].
  destruct (PyStr.split_first needle s) as [[a b]|]; [discriminate|].
  now split.
Qed.

(** The closer has no proper overlap with itself: where it does not occur
    in the body, its first occurrence after the body is the one appended. *)
Lemma closer_first (body post : string) :
  PyStr.contains "]]>" body = false ->
  PyStr.split_first "]]>" (body +:+ "]]>" +:+ post) = Some (body, post).
Proof.
  induction body as [|c body IH]; intros H.
  - cbn. now destruct post.
  - apply contains_cons_false in H. destruct H as [Hp Hc].
    specialize (IH Hc). cbn [String.append] in IH |- *.
    cbn [PyStr.split_first]. rewrite IH.
    assert (Hpre : String.prefix "]]>" (String c (body +:+ String "]" (String "]" (String ">" post)))) = false).
    { cbn [String.prefix] in Hp |- *.
      destruct (ascii_dec "]" c) as [_|_]; [|reflexivity].
      destruct body as [|d body]; cbn [String.append String.prefix] in Hp |- *.
      - destruct (ascii_dec "]" "]") as [_|_]; [|reflexivity].
        destruct (ascii_dec ">" "]") as [e|_]; [discriminate e|reflexivity].
      - destruct (ascii_dec "]" d) as [_|_]; [|reflexivity].
        destruct body as [|e body]; cbn [String.append String.prefix] in Hp |- *.
        + destruct (ascii_dec ">" "]") as [e|_]; [discriminate e|reflexivity].
        + destruct (ascii_dec ">" e) as [_|_]; [|reflexivity].
          destruct body; discriminate Hp. }
    now rewrite Hpre.
Qed.

(** X1. A payload wrapped in a CDATA envelope gives the text between the
    opener and the first closer, trimmed; what stands before the opener and
    after the closer is dropped. *)
Theorem cdata_envelope_stripped (pre body post : string) :
  has_char "<" pre = false ->
  PyStr.contains "]]>" body = false ->
  extract_cdata (pre +:+ "<![CDATA[" +:+ body +:+ "]]>" +:+ post)
  = Some (PyStr.strip body).
Proof.
  intros Hpre Hbody. unfold extract_cdata, cdata_search.
  rewrite truthy_append_r by reflexivity.
  rewrite (split_first_after "<" "![CDATA[" pre _ Hpre).
  now rewrite (closer_first body post Hbody).
Qed.

Lemma cdata_envelope_stripped_witness :
  (has_char "<" "  " = false /\ PyStr.contains "]]>" " x := a[i]; " = false)
  /\ extract_cdata ("  " +:+ "<![CDATA[" +:+ " x := a[i]; " +:+ "]]>" +:+ " ")
     = Some (PyStr.strip " x := a[i]; ").
Proof.
  split; [split; reflexivity|].
  apply (cdata_envelope_stripped "  " " x := a[i]; " " "); reflexivity.
Defined.

(** X2. An envelope that is opened but never closed is not an envelope:
    the whole text, opener included, is the payload, trimmed. *)
Theorem cdata_unterminated_kept (pre rest : string) :
  has_char "<" pre = false ->
  PyStr.contains "]]>" rest = false ->
  extract_cdata (pre +:+ "<![CDATA[" +:+ rest)
  = Some (PyStr.strip (pre +:+ "<![CDATA[" +:+ rest)).
Proof.
  intros Hpre Hrest. unfold extract_cdata, cdata_search.
  rewrite truthy_append_r by reflexivity.
  rewrite (split_first_after "<" "![CDATA[" pre _ Hpre).
  unfold PyStr.contains in Hrest.
  now destruct (PyStr.split_first "]]>" rest) as [[a b]|].
Qed.

Lemma cdata_unterminated_kept_witness :
  (has_char "<" " " = false /\ PyStr.contains "]]>" "VAR END_VAR ]] " = false)
  /\ extract_cdata (" " +:+ "<![CDATA[" +:+ "VAR END_VAR ]] ")
     = Some "<![CDATA[VAR END_VAR ]]".
Proof.
  split; [split; reflexivity|].
  apply (cdata_unterminated_kept " " "VAR END_VAR ]] "); reflexivity.
Defined.

(** X3. Text without an envelope is the payload, trimmed; only the empty
    text has no payload at all. *)
Theorem cdata_plain_text_trimmed (text : string) :
  (extract_cdata text = None <-> text = EmptyString)
  /\ (has_char "<" text = false -> text <> EmptyString ->
      extract_cdata text = Some (PyStr.strip text)).
Proof.
  split.
  - unfold extract_cdata. destruct text as [|c text]; cbn [PyStr.truthy].
    + now split.
    + split; [|discriminate]. now destruct (cdata_search (String c text)).
  - intros Hc Hne. unfold extract_cdata, cdata_search.
    rewrite (split_first_absent "<" "![CDATA[" text Hc).
    destruct text; [congruence|reflexivity].
Qed.

(** X4. Every segment of an extracted unit carries text that is trimmed
    and not empty. *)
Theorem segments_trimmed_nonempty (root : ET.Element) (label code : string) :
  In (label, code) (collect_segments root) ->
  code <> EmptyString /\ PyStr.strip code = code.
Proof.
  rewrite collect_segments_canonical. unfold canonical_segments.
  intros Hin. apply in_map_iff in Hin. destruct Hin as [c [Heq Hc]].
  injection Heq as _ <-. apply filter_In in Hc. destruct Hc as [_ Ht].
  split; [now apply truthy_nonempty|].
  unfold trimmed_payload, node_payload in *.
  destruct (snd c) as [e|]; [|discriminate Ht].
  destruct (ET.text e) as [t|]; [|discriminate Ht].
  destruct (extract_cdata t) as [p|] eqn:Hp; [|discriminate Ht].
  apply (extract_cdata_trimmed t p Hp).
Qed.

Lemma segments_trimmed_nonempty_witness :
  In ("Declaration", "VAR x : INT; END_VAR") (collect_segments sample_main)
  /\ "VAR x : INT; END_VAR" <> EmptyString
  /\ PyStr.strip "VAR x : INT; END_VAR" = "VAR x : INT; END_VAR".
Proof.
  assert (H : In ("Declaration", "VAR x : INT; END_VAR")
                 (collect_segments sample_main)) by (simpl; auto).
  split; [exact H|].
  exact (segments_trimmed_nonempty sample_main _ _ H).
Defined.

(** ** Titles *)

Lemma after_last_absent (c : ascii) (s : string) :
  has_char c s = false -> PyStr.after_last c s = s.
Proof.
  destruct s as [|d s]; [reflexivity|]. cbn [has_char PyStr.after_last].
  intros H. apply orb_false_elim in H. destruct H as [Hd Hs].
  now rewrite contains_char, Hs, Hd.
Qed.

Lemma has_char_append (c : ascii) (a b : string) :
  has_char c (a +:+ b) = has_char c a || has_char c b.
Proof.
  induction a as [|d a IH]; [reflexivity|].
  cbn. now rewrite IH, orb_assoc.
Qed.

Lemma after_last_append (c : ascii) (pre post : string) :
  has_char c post = false ->
  PyStr.after_last c (pre +:+ String c post) = post.
Proof.
  intros Hpost. induction pre as [|d pre IH].
  - cbn [String.append PyStr.after_last].
    now rewrite contains_char, Hpost, Ascii.eqb_refl.
  - cbn [String.append PyStr.after_last].
    rewrite contains_char, has_char_append. cbn [has_char].
    rewrite Ascii.eqb_refl. cbn [orb]. rewrite orb_true_r. exact IH.
Qed.

Lemma get_absent (a : list (string * string)) (key default : string) :
  (forall v, ~ In (key, v) a) -> ET.get a key default = default.
Proof.
  induction a as [|[k v] a IH]; intros H; [reflexivity|].
  cbn [ET.get]. destruct (String.eqb k key) eqn:Hk.
  - apply String.eqb_eq in Hk. subst k. exfalso. apply (H v). now left.
  - apply IH. intros v' Hin. apply (H v'). now right.
Qed.

(** X5. A unit without a Name attribute is titled with the name Unknown,
    for each of the four kinds of unit. *)
Theorem title_without_name
    (file_path : Path) (a : list (string * string)) (x : option string)
    (cs : list ET.Element) :
  (forall v, ~ In ("Name", v) a) ->
  unit_title file_path (ET.Elem "POU" a x cs)
  = "POU: Unknown " +:+ ET.get a "SpecialFunc" EmptyString
  /\ unit_title file_path (ET.Elem "Itf" a x cs) = "Interface: Unknown"
  /\ unit_title file_path (ET.Elem "DUT" a x cs) = "DUT: Unknown"
  /\ unit_title file_path (ET.Elem "GVL" a x cs) = "GVL: Unknown".
Proof.
  intros H. unfold unit_title. cbn [ET.tag ET.attrib].
  rewrite (get_absent a "Name" "Unknown" H). repeat split.
Qed.

Lemma title_without_name_witness :
  (forall v, ~ In ("Name", v) [("Id", "{1}")])
  /\ unit_title "in/a.TcDUT" (ET.Elem "DUT" [("Id", "{1}")] None [])
     = "DUT: Unknown".
Proof.
  assert (H : forall v, ~ In ("Name", v) [("Id", "{1}")]).
  { intros v [Hin|[]]. discriminate Hin. }
  split; [exact H|].
  exact (proj1 (proj2 (proj2
           (title_without_name "in/a.TcDUT" [("Id", "{1}")] None [] H)))).
Defined.

(** X6. The namespace of the root tag plays no part in the title: a tag
    written with a namespace in braces gives the title of the bare tag. *)
Theorem title_ignores_namespace
    (file_path : Path) (ns t : string) (a : list (string * string))
    (x : option string) (cs : list ET.Element) :
  has_char "}" t = false ->
  unit_title file_path (ET.Elem (ns +:+ "}" +:+ t) a x cs)
  = unit_title file_path (ET.Elem t a x cs).
Proof.
  intros H. unfold unit_title. cbn [ET.tag ET.attrib].
  change (ns +:+ "}" +:+ t) with (ns +:+ String "}" t).
  now rewrite (after_last_append "}" ns t H), (after_last_absent "}" t H).
Qed.

Lemma title_ignores_namespace_witness :
  has_char "}" "GVL" = false
  /\ unit_title "in/g.TcGVL"
       (ET.Elem ("{http://www.w3.org/2001/XMLSchema" +:+ "}" +:+ "GVL")
                [("Name", "Globals")] None [])
     = "GVL: Globals".
Proof.
  split; [reflexivity|].
  apply (title_ignores_namespace "in/g.TcGVL"
           "{http://www.w3.org/2001/XMLSchema" "GVL").
  reflexivity.
Defined.

Lemma twincat_file_named (p : Path) :
  is_twincat_file p = true -> Path_name p <> EmptyString.
Proof.
  intros H Hname. unfold is_twincat_file, suffix in H.
  rewrite Hname in H. discriminate H.
Qed.

Lemma unit_title_truthy (file_path : Path) (root : ET.Element) :
  is_twincat_file file_path = true ->
  PyStr.truthy (unit_title file_path root) = true.
Proof.
  intros H. unfold unit_title.
  destruct (String.eqb (PyStr.after_last "}" (ET.tag root)) "POU") eqn:Hpou.
  - apply String.eqb_eq in Hpou. now rewrite Hpou.
  - destruct (String.eqb (PyStr.after_last "}" (ET.tag root)) "Itf");
      [reflexivity|].
    destruct (String.eqb (PyStr.after_last "}" (ET.tag root)) "DUT");
      [reflexivity|].
    destruct (String.eqb (PyStr.after_last "}" (ET.tag root)) "GVL");
      [reflexivity|].
    pose proof (twincat_file_named file_path H) as Hn.
    now destruct (Path_name file_path).
Qed.

(** X7. For a file the collector accepts, the title of its unit is never
    empty, whatever the tree: of the test [title and code_segments] only the
    segment list can fail, and it fails exactly when no segment was found. *)
Theorem title_never_empty
    (parse : Path -> parsed) (file_path : Path) (root : ET.Element) :
  is_twincat_file file_path = true ->
  parse file_path = Tree root ->
  PyStr.truthy (unit_title file_path root) = true
  /\ (collect_segments root = [] ->
      snd (extract_entry parse file_path) = RawPath file_path)
  /\ (collect_segments root <> [] ->
      snd (extract_entry parse file_path)
      = Extracted (unit_title file_path root) (collect_segments root)).
Proof.
  intros Hfile Hparse.
  pose proof (unit_title_truthy file_path root Hfile) as Ht.
  split; [exact Ht|].
  unfold extract_entry, extract_twincat_code. rewrite Hparse, Ht.
  split; intros Hs.
  - now rewrite Hs.
  - now destruct (collect_segments root).
Qed.

Lemma title_never_empty_witness :
  (is_twincat_file "in/POUs/Main.TcPOU" = true
   /\ sample_parse "in/POUs/Main.TcPOU" = Tree sample_main)
  /\ PyStr.truthy (unit_title "in/POUs/Main.TcPOU" sample_main) = true
  /\ (collect_segments sample_main = [] ->
      snd (extract_entry sample_parse "in/POUs/Main.TcPOU")
      = RawPath "in/POUs/Main.TcPOU")
  /\ (collect_segments sample_main <> [] ->
      snd (extract_entry sample_parse "in/POUs/Main.TcPOU")
      = Extracted (unit_title "in/POUs/Main.TcPOU" sample_main)
                  (collect_segments sample_main)).
Proof.
  split; [split; reflexivity|].
  apply (title_never_empty sample_parse "in/POUs/Main.TcPOU" sample_main);
    reflexivity.
Defined.

(** ** How many segments *)

Lemma emit_length (c : candidate) : length (emit c) <= 1.
Proof. unfold emit. destruct (PyStr.truthy (trimmed_payload c)); cbn; lia. Qed.

Lemma flat_map_emit_length (cs : list candidate) :
  length (flat_map emit cs) <= length cs.
Proof.
  induction cs as [|c cs IH]; cbn; [lia|].
  rewrite length_app. pose proof (emit_length c). lia.
Qed.

Lemma flat_map_length_le {A B : Type} (f : A -> list B) (n : nat) (l : list A) :
  (forall x, length (f x) <= n) -> length (flat_map f l) <= n * length l.
Proof.
  intros H. induction l as [|x l IH]; cbn; [lia|].
  rewrite length_app. specialize (H x). lia.
Qed.

(** X8. A unit gives at most two segments of its own, two per method and
    five per property. *)
Theorem segment_count_bound (root : ET.Element) :
  length (collect_segments root)
  <= 2 + 2 * length (ET.findall_desc "Method" root)
       + 5 * length (ET.findall_desc "Property" root).
Proof.
  rewrite collect_segments_canonical, canonical_segments_emit.
  eapply Nat.le_trans; [apply flat_map_emit_length|].
  unfold canonical_candidates. rewrite !length_app. cbn [length].
  pose proof (flat_map_length_le method_candidates 2
                (ET.findall_desc "Method" root)) as Hm.
  pose proof (flat_map_length_le property_candidates 5
                (ET.findall_desc "Property" root)) as Hp.
  assert (H2 : forall m, length (method_candidates m) <= 2) by (intros; cbn; lia).
  assert (H5 : forall p, length (property_candidates p) <= 5).
  { intros p. unfold property_candidates. rewrite !length_app.
    unfold accessor_candidates.
    destruct (ET.find_child "Get" p), (ET.find_child "Set" p); cbn; lia. }
  specialize (Hm H2). specialize (Hp H5). lia.
Qed.

(** * Further properties: the collector *)


Lemma dict_append_keys (d : list (Path * list Path)) (f p : Path) :
  map fst (dict_append d f p)
  = if existsb (String.eqb f) (map fst d) then map fst d else map fst d ++ [f].
Proof.
  induction d as [|[k l] d IH]; [reflexivity|].
  cbn [dict_append map fst existsb].
  rewrite (String.eqb_sym f k). destruct (String.eqb k f); [reflexivity|].
  cbn [map fst orb]. rewrite IH.
  now destruct (existsb (String.eqb f) (map fst d)).
Qed.

Lemma existsb_eqb_In (f : Path) (l : list Path) :
  existsb (String.eqb f) l = false -> ~ In f l.
Proof.
  intros H Hin. assert (existsb (String.eqb f) l = true); [|congruence].
  apply existsb_exists. exists f. split; [exact Hin|apply String.eqb_refl].
Qed.

Lemma dict_append_NoDup (d : list (Path * list Path)) (f p : Path) :
  NoDup (map fst d) -> NoDup (map fst (dict_append d f p)).
Proof.
  intros H. rewrite dict_append_keys.
  destruct (existsb (String.eqb f) (map fst d)) eqn:He; [exact H|].
  apply NoDup_app; [exact H|repeat constructor; intros []|].
  intros k Hk [Heq|[]]. subst k. now apply (existsb_eqb_In f _ He).
Qed.

Lemma dict_append_In (d : list (Path * list Path)) (f p k : Path) (l : list Path) :
  In (k, l) (dict_append d f p) ->
  (k = f /\ exists l0, l = l0 ++ [p] /\ (l0 = [] \/ In (k, l0) d))
  \/ In (k, l) d.
Proof.
  induction d as [|[k' l'] d IH]; cbn [dict_append].
  - intros [H|[]]. injection H as <- <-. left. split; [reflexivity|].
    exists []. now split; [|left].
  - destruct (String.eqb k' f) eqn:Hf.
    + apply String.eqb_eq in Hf. subst k'. intros [H|H].
      * injection H as <- <-. left. split; [reflexivity|].
        exists l'. split; [reflexivity|]. right. now left.
      * right. now right.
    + intros [H|H]; [right; now left|].
      destruct (IH H) as [[-> [l0 [-> Hl0]]]|Hin].
      * left. split; [reflexivity|]. exists l0. split; [reflexivity|].
        destruct Hl0 as [->|Hl0]; [now left|right; now right].
      * right. now right.
Qed.

Lemma dict_append_well_collected (d : list (Path * list Path)) (f p : Path) :
  is_twincat_file p = true ->
  well_collected d -> well_collected (dict_append d f p).
Proof.
  intros Hp [Hnd Hall]. split; [now apply dict_append_NoDup|].
  apply Forall_forall. intros [k l] Hin. cbn [snd].
  rewrite Forall_forall in Hall.
  destruct (dict_append_In d f p k l Hin) as [[-> [l0 [-> Hl0]]]|Hd].
  - split; [now destruct l0|].
    apply Forall_app. split; [|now repeat constructor].
    destruct Hl0 as [->|Hl0]; [constructor|].
    apply (Hall (f, l0) Hl0).
  - apply (Hall (k, l) Hd).
Qed.

Section Collecting.

Variable input_folder : Path.

Lemma add_names_well_collected (root folder_path : Path) (names : list string) :
  forall d, well_collected d -> well_collected (add_names root folder_path names d).
Proof.
  unfold add_names. induction names as [|n names IH]; intros d H; [exact H|].
  cbn [fold_left]. apply IH.
  destruct (is_twincat_file (Path_join root n)) eqn:Hn; [|exact H].
  now apply dict_append_well_collected.
Qed.


Lemma collect_files_fold (walk : list walk_entry) :
  forall d,
    fold_left
      (fun files_by_folder (w : walk_entry) =>
         let '(folder_path, files) := w in
         let root := if String.eqb folder_path "." then input_folder
                     else Path_join input_folder folder_path in
         fold_left
           (fun files_by_folder file =>
              let file_path := Path_join root file in
              if is_twincat_file file_path
              then dict_append files_by_folder folder_path file_path
              else files_by_folder)
           files files_by_folder)
      walk d
    = fold_left
        (fun d (w : walk_entry) =>
           add_names (if String.eqb (fst w) "." then input_folder
                      else Path_join input_folder (fst w))
                     (fst w) (snd w) d)
        walk d.
Proof.
  induction walk as [|[folder_path files] walk IH]; intros d; [reflexivity|].
  cbn [fold_left fst snd]. apply IH.
Qed.

Lemma collect_files_well_collected (walk : list walk_entry) :
  well_collected (collect_files walk input_folder).
Proof.
  unfold collect_files. rewrite collect_files_fold.
  assert (H : well_collected []) by (split; constructor).
  revert H. generalize (@nil (Path * list Path)).
  induction walk as [|w walk IH]; intros d H; [exact H|].
  cbn [fold_left]. apply IH. now apply add_names_well_collected.
Qed.


End Collecting.




(** X10. The filter of the collector is exclusive: every path it keeps has
    one of the four TwinCAT suffixes. *)
Theorem collected_files_are_twincat
    (walk : list walk_entry) (input_folder folder : Path) (files : list Path)
    (file_path : Path) :
  In (folder, files) (collect_files walk input_folder) ->
  In file_path files ->
  In (suffix file_path) [".TcPOU"; ".TcDUT"; ".TcGVL"; ".TcIO"].
Proof.
  intros Hd Hf.
  destruct (collect_files_well_collected input_folder walk) as [_ Hall].
  rewrite Forall_forall in Hall. destruct (Hall _ Hd) as [_ Hfiles].
  rewrite Forall_forall in Hfiles. specialize (Hfiles _ Hf).
  unfold is_twincat_file in Hfiles. apply existsb_exists in Hfiles.
  destruct Hfiles as [ext [Hin Heq]]. apply String.eqb_eq in Heq.
  now rewrite Heq.
Qed.

Lemma collected_files_are_twincat_witness :
  (In ("POUs", ["in/POUs/Bad.TcPOU"; "in/POUs/Main.TcPOU"])
      (collect_files (sample_walk_bad "in") "in")
   /\ In "in/POUs/Main.TcPOU" ["in/POUs/Bad.TcPOU"; "in/POUs/Main.TcPOU"])
  /\ In (suffix "in/POUs/Main.TcPOU") [".TcPOU"; ".TcDUT"; ".TcGVL"; ".TcIO"].
Proof.
  assert (H1 : In ("POUs", ["in/POUs/Bad.TcPOU"; "in/POUs/Main.TcPOU"])
                  (collect_files (sample_walk_bad "in") "in"))
    by (vm_compute; auto).
  assert (H2 : In "in/POUs/Main.TcPOU" ["in/POUs/Bad.TcPOU"; "in/POUs/Main.TcPOU"])
    by (simpl; auto).
  split; [split; assumption|].
  exact (collected_files_are_twincat (sample_walk_bad "in") "in" "POUs" _ _ H1 H2).
Defined.

(** ** The suffix filter *)

Lemma after_last_split (c : ascii) (s : string) :
  has_char c s = true ->
  exists pre, s = pre +:+ String c (PyStr.after_last c s).
Proof.
  induction s as [|d s IH]; intros H; [discriminate H|].
  cbn [PyStr.after_last]. rewrite contains_char.
  destruct (has_char c s) eqn:Hs.
  - destruct (IH eq_refl) as [pre Hpre]. exists (String d pre).
    cbn. now rewrite <- Hpre.
  - cbn [has_char] in H. rewrite Hs, orb_false_r in H. rewrite H.
    apply Ascii.eqb_eq in H. subst d. now exists EmptyString.
Qed.

Lemma suffix_of_name (p : Path) (stem e : string) :
  Path_name p = stem +:+ String "." e ->
  stem <> EmptyString -> e <> EmptyString -> has_char "." e = false ->
  suffix p = String "." e.
Proof.
  intros Hname Hstem He Hdot. unfold suffix. rewrite Hname.
  rewrite contains_char, has_char_append. cbn [has_char].
  rewrite Ascii.eqb_refl, orb_true_r.
  rewrite (after_last_append "." stem e Hdot), length_append.
  cbn [String.length].
  destruct e as [|x e]; [congruence|]. destruct stem as [|y stem]; [congruence|].
  cbn [String.length Nat.eqb orb].
  destruct (Nat.eqb_spec (S (String.length e) + 1)
              (S (String.length stem) + S (S (String.length e))));
    [lia|reflexivity].
Qed.

(** X11. The collector accepts a path exactly when its last component is
    a stem that is not empty followed by one of the four suffixes, in this
    very spelling. *)
Theorem twincat_file_iff (p : Path) :
  is_twincat_file p = true
  <-> exists stem ext,
        Path_name p = stem +:+ ext /\ stem <> EmptyString
        /\ In ext [".TcPOU"; ".TcDUT"; ".TcGVL"; ".TcIO"].
Proof.
  split.
  - intros H. unfold is_twincat_file in H. apply existsb_exists in H.
    destruct H as [ext [Hin Heq]]. apply String.eqb_eq in Heq.
    assert (Hne : suffix p <> EmptyString).
    { rewrite Heq. intros ->. cbn in Hin. intuition discriminate. }
    unfold suffix in Heq, Hne.
    destruct (PyStr.contains "." (Path_name p)) eqn:Hc; [|congruence].
    rewrite contains_char in Hc.
    destruct (after_last_split "." _ Hc) as [pre Hpre].
    destruct ((String.length (PyStr.after_last "." (Path_name p)) =? 0)
              || (String.length (PyStr.after_last "." (Path_name p)) + 1
                  =? String.length (Path_name p))) eqn:Hlen; [congruence|].
    exists pre, ext. split; [|split; [|exact Hin]].
    + now rewrite <- Heq.
    + intros ->. apply orb_false_elim in Hlen. destruct Hlen as [_ Hlen].
      apply Nat.eqb_neq in Hlen. apply Hlen.
      apply (f_equal String.length) in Hpre.
      cbn [String.append String.length] in Hpre.
      rewrite Nat.add_1_r. symmetry. exact Hpre.
  - intros [stem [ext [Hname [Hstem Hin]]]].
    unfold is_twincat_file. apply existsb_exists. exists ext.
    split; [exact Hin|]. apply String.eqb_eq.
    cbn [In] in Hin.
    destruct Hin as [<-|[<-|[<-|[<-|[]]]]];
      apply (suffix_of_name p stem _ Hname Hstem);
      [discriminate|reflexivity|discriminate|reflexivity
      |discriminate|reflexivity|discriminate|reflexivity].
Qed.

(** ** The number of files found *)

Lemma total_dict_append (d : list (Path * list Path)) (f p : Path) :
  total (dict_append d f p) = total d + 1.
Proof.
  unfold total, list_sum. induction d as [|[k l] d IH]; [reflexivity|].
  cbn [dict_append].
  destruct (String.eqb k f); cbn [map fold_right snd].
  - rewrite length_app. cbn [length]. lia.
  - rewrite IH. lia.
Qed.

Lemma total_add_names (root folder_path : Path) (names : list string) :
  forall d,
    total (add_names root folder_path names d)
    = total d + length (filter is_twincat_file (map (Path_join root) names)).
Proof.
  unfold add_names. induction names as [|n names IH]; intros d.
  - cbn [fold_left map filter length]. lia.
  - cbn [fold_left map filter]. rewrite IH.
    destruct (is_twincat_file (Path_join root n)); [|reflexivity].
    rewrite total_dict_append. cbn [length]. lia.
Qed.

Lemma total_collect_files (walk : list walk_entry) (input_folder : Path) :
  total (collect_files walk input_folder)
  = length (flat_map (matching input_folder) walk).
Proof.
  unfold collect_files. rewrite collect_files_fold.
  change (length (flat_map (matching input_folder) walk))
    with (total [] + length (flat_map (matching input_folder) walk)).
  generalize (@nil (Path * list Path)).
  induction walk as [|w walk IH]; intros d.
  - cbn [fold_left flat_map length]. lia.
  - cbn [fold_left flat_map]. rewrite IH, total_add_names, length_app.
    unfold matching. lia.
Qed.

(** X12. Whatever happens afterwards, the first line a run with two
    arguments prints tells how many files of the walk have a TwinCAT suffix. *)
Theorem found_line_counts_twincat_files
    (limit : nat) (walk : Path -> list walk_entry) (parse : Path -> parsed)
    (script input_folder output_pdf : string) (rest : list string) :
  hd_error (stdout (main limit walk parse
                      (script :: input_folder :: output_pdf :: rest)))
  = Some ("Found " +:+
          PyStr.str (length (flat_map (matching input_folder) (walk input_folder)))
          +:+ " TwinCAT files").
Proof.
  unfold main.
  rewrite <- total_collect_files. fold (total (collect_files (walk input_folder) input_folder)).
  destruct (extract_all parse (collect_files (walk input_folder) input_folder))
    as [printed data].
  destruct (generate_pdf limit data output_pdf) as [[elements done]|e];
    reflexivity.
Qed.

(** * Further properties: rendering a line *)






(** ** Escaping *)

Lemma has_char_replace_same (c : ascii) (new s : string) :
  has_char c new = false -> has_char c (PyStr.replace c new s) = false.
Proof.
  intros Hnew. induction s as [|d s IH]; [reflexivity|].
  cbn [PyStr.replace]. destruct (Ascii.eqb d c) eqn:Hd.
  - now rewrite has_char_append, Hnew, IH.
  - cbn [has_char]. now rewrite Hd, IH.
Qed.

Lemma has_char_replace_other (c old : ascii) (new s : string) :
  Ascii.eqb old c = false -> has_char c new = false ->
  has_char c (PyStr.replace old new s) = has_char c s.
Proof.
  intros Hne Hnew. induction s as [|d s IH]; [reflexivity|].
  cbn [PyStr.replace has_char]. destruct (Ascii.eqb d old) eqn:Hd.
  - apply Ascii.eqb_eq in Hd. subst d.
    now rewrite has_char_append, Hnew, IH, Hne.
  - cbn [has_char]. now rewrite IH.
Qed.

Lemma replace_absent (old : ascii) (new s : string) :
  has_char old s = false -> PyStr.replace old new s = s.
Proof.
  induction s as [|d s IH]; intros H; [reflexivity|].
  cbn in H. apply orb_false_elim in H. destruct H as [Hd Hs].
  cbn [PyStr.replace]. now rewrite Hd, IH.
Qed.

(** X14. The escaped line holds no angle bracket at all, and a line
    without ampersand and angle brackets is escaped to itself. *)
Theorem escape_removes_angle_brackets (line : string) :
  has_char "<" (escape line) = false
  /\ has_char ">" (escape line) = false
  /\ (has_char "&" line = false -> has_char "<" line = false ->
      has_char ">" line = false -> escape line = line).
Proof.
  unfold escape. split; [|split].
  - rewrite has_char_replace_other by reflexivity.
    now apply has_char_replace_same.
  - now apply has_char_replace_same.
  - intros Ha Hl Hg. now rewrite (replace_absent "&" _ _ Ha),
      (replace_absent "<" _ _ Hl), (replace_absent ">" _ _ Hg).
Qed.

(** ** Lines with a comment *)



(** * Further properties: keyword passes *)

Lemma contains_false_prefix (needle s : string) :
  PyStr.contains needle s = false -> String.prefix needle s = false.
Proof.
  unfold PyStr.contains. destruct s as [|c s]; cbn [PyStr.split_first];
    now destruct (String.prefix needle _).
Qed.

Lemma match_word_pattern_prefix (kw : string) (prev : option ascii)
    (s m r : string) :
  plain kw = true ->
  Re.match_here (Re.word_pattern kw) prev s = Some (m, r) ->
  String.prefix kw s = true.
Proof.
  intros Hplain H.
  destruct (match_word_pattern kw Hplain _ _ _ _ H) as [-> _].
  apply prefix_append.
Qed.

Lemma sub_scan_absent (kw : string) :
  plain kw = true ->
  forall s prev,
    PyStr.contains kw s = false ->
    Re.sub_scan (Re.word_pattern kw) blue prev 0 s = s.
Proof.
  intros Hplain. induction s as [|c s IH]; intros prev Hc.
  - cbn [Re.sub_scan].
    destruct (Re.match_here (Re.word_pattern kw) prev EmptyString)
      as [[m r]|] eqn:Hm; [|reflexivity].
    apply (match_word_pattern_prefix kw prev _ m r Hplain) in Hm.
    apply contains_false_prefix in Hc. congruence.
  - pose proof (contains_false_prefix _ _ Hc) as Hp.
    apply contains_cons_false in Hc. destruct Hc as [_ Hc].
    cbn [Re.sub_scan].
    destruct (Re.match_here (Re.word_pattern kw) prev (String c s))
      as [[m r]|] eqn:Hm.
    + apply (match_word_pattern_prefix kw prev _ m r Hplain) in Hm. congruence.
    + now rewrite IH.
Qed.

Lemma pass_absent (kw text : string) :
  In kw keywords ->
  PyStr.contains kw text = false ->
  Re.sub (Re.word_pattern kw) blue text = text.
Proof.
  intros Hin Hc. pose proof keywords_plain_or_caret as Hall.
  rewrite forallb_forall in Hall. specialize (Hall kw Hin).
  apply orb_prop in Hall. destruct Hall as [H|H].
  - apply andb_prop in H. destruct H as [Hplain _].
    now apply sub_scan_absent.
  - apply String.eqb_eq in H. subst kw.
    apply (sub_scan_no_match blue _ match_this_caret).
Qed.

Lemma passes_absent (text : string) (kws : list string) :
  (forall kw, In kw kws -> In kw keywords /\ PyStr.contains kw text = false) ->
  fold_left (fun acc keyword => Re.sub (Re.word_pattern keyword) blue acc)
            kws text = text.
Proof.
  induction kws as [|kw kws IH]; intros H; [reflexivity|].
  cbn [fold_left]. destruct (H kw (or_introl eq_refl)) as [Hin Hc].
  rewrite (pass_absent kw text Hin Hc). apply IH.
  intros kw' Hin'. apply H. now right.
Qed.

(** X16. A text in which no word of the keyword list occurs, not even
    inside another word, comes out of the highlighter unchanged. *)
Theorem highlight_without_keywords (text : string) :
  (forall kw, In kw keywords -> PyStr.contains kw text = false) ->
  highlight text = text.
Proof.
  intros H. unfold highlight. apply passes_absent.
  intros kw Hin. split; [exact Hin|now apply H].
Qed.

Lemma highlight_without_keywords_witness :
  (forall kw, In kw keywords -> PyStr.contains kw "x := y + 1; (* sum *)" = false)
  /\ highlight "x := y + 1; (* sum *)" = "x := y + 1; (* sum *)".
Proof.
  assert (H : forall kw, In kw keywords ->
                         PyStr.contains kw "x := y + 1; (* sum *)" = false).
  { assert (Hall : forallb (fun kw => negb (PyStr.contains kw "x := y + 1; (* sum *)"))
                           keywords = true) by (vm_compute; reflexivity).
    rewrite forallb_forall in Hall. intros kw Hin.
    apply negb_true_iff, Hall, Hin. }
  split; [exact H|].
  exact (highlight_without_keywords "x := y + 1; (* sum *)" H).
Defined.

(** X17. The keyword THIS^ is never highlighted: the caret of its pattern
    asks for the start of the text after four characters were read, so the
    pass for it returns every text unchanged. *)
Theorem this_caret_never_highlighted (text : string) :
  Re.sub (Re.word_pattern "THIS^") blue text = text
  /\ render_line ("y := " +:+ "THIS^" +:+ ".x;")
     = Paragraph ("y := " +:+ "THIS^" +:+ ".x;") CodeStyle.
Proof.
  split; [|vm_compute; reflexivity].
  apply (sub_scan_no_match blue _ match_this_caret).
Qed.

(** ** Every whole word is marked *)

Lemma match_here_plain_complete (kw : string) (q : list Re.item) :
  plain kw = true ->
  forall prev s,
    Re.match_here (Re.items_of_string kw ++ q) prev (kw +:+ s)
    = match Re.match_here q (last_char kw prev) s with
      | Some (m, r) => Some (kw +:+ m, r)
      | None => None
      end.
Proof.
  induction kw as [|c kw IH]; intros Hplain prev s.
  - cbn. now destruct (Re.match_here q prev s) as [[m r]|].
  - cbn [plain] in Hplain. apply andb_prop in Hplain.
    destruct Hplain as [Hc Hkw].
    cbn [Re.items_of_string app String.append last_char].
    unfold Re.item_of_char.
    destruct (Ascii.eqb c "^"); [discriminate Hc|].
    cbn [Re.match_here]. rewrite Ascii.eqb_refl, (IH Hkw).
    now destruct (Re.match_here q (last_char kw (Some c)) s) as [[m r]|].
Qed.

Lemma match_whole_word (kw : string) (prev : option ascii) (s : string) :
  plain kw = true -> kw <> EmptyString ->
  whole_word_here kw prev s ->
  exists r, s = kw +:+ r
            /\ Re.match_here (Re.word_pattern kw) prev s = Some (kw, r).
Proof.
  intros Hplain Hne [r [-> [Hb Hb']]]. exists r. split; [reflexivity|].
  unfold Re.word_pattern. cbn [Re.match_here].
  rewrite (head_append kw r Hne), Hb.
  rewrite (match_here_plain_complete kw [Re.WordB] Hplain).
  cbn [Re.match_here]. now rewrite Hb', append_empty_r.
Qed.

Lemma sub_scan_scanned (kw : string) :
  plain kw = true -> kw <> EmptyString ->
  forall n s prev,
    String.length s <= n ->
    scanned kw prev s (Re.sub_scan (Re.word_pattern kw) blue prev 0 s).
Proof.
  intros Hplain Hne. induction n as [|n IH]; intros s prev Hlen.
  - destruct s; [|cbn in Hlen; lia].
    cbn [Re.sub_scan].
    destruct (Re.match_here (Re.word_pattern kw) prev EmptyString)
      as [[m r]|] eqn:Hm; [|constructor].
    destruct (match_word_pattern kw Hplain _ _ _ _ Hm) as [Hs _].
    destruct kw; [congruence|discriminate Hs].
  - destruct s as [|c s].
    + apply (IH EmptyString prev). cbn; lia.
    + cbn [Re.sub_scan].
      destruct (Re.match_here (Re.word_pattern kw) prev (String c s))
        as [[m r]|] eqn:Hm.
      * destruct (match_word_pattern kw Hplain _ _ _ _ Hm)
          as [Hs [-> [Hb Hb']]].
        destruct kw as [|k kw']; [congruence|].
        cbn [String.append] in Hs. injection Hs as -> ->.
        rewrite sub_scan_skip.
        change (last_char kw' (Some k)) with (last_char (String k kw') prev).
        change (String k (kw' +:+ r)) with (String k kw' +:+ r).
        apply sc_mark; try assumption.
        apply IH. cbn in Hlen. rewrite length_append in Hlen. lia.
      * apply sc_copy.
        -- intros Hw.
           destruct (match_whole_word kw prev _ Hplain Hne Hw) as [r [_ Hr]].
           congruence.
        -- apply IH. cbn in Hlen. lia.
Qed.

(** X18. For every keyword but THIS^, a pass reads the text from left to
    right and wraps every whole-word occurrence it meets, resuming after the
    wrapped word; it copies a character only where no whole-word occurrence
    starts. *)
Theorem keyword_pass_marks_every_whole_word (kw text : string) :
  In kw keywords -> kw <> "THIS^" ->
  scanned kw None text (Re.sub (Re.word_pattern kw) blue text).
Proof.
  intros Hin Hthis. pose proof keywords_plain_or_caret as Hall.
  rewrite forallb_forall in Hall. specialize (Hall kw Hin).
  apply orb_prop in Hall. destruct Hall as [H|H].
  - apply andb_prop in H. destruct H as [Hplain Hne].
    apply (sub_scan_scanned kw Hplain (truthy_nonempty kw Hne)
             (String.length text)).
    apply Nat.le_refl.
  - apply String.eqb_eq in H. congruence.
Qed.

Lemma keyword_pass_marks_every_whole_word_witness :
  (In "IF" keywords /\ "IF" <> "THIS^")
  /\ scanned "IF" None "IF a THEN"
       (Re.sub (Re.word_pattern "IF") blue "IF a THEN").
Proof.
  assert (H1 : In "IF" keywords).
  { assert (He : existsb (String.eqb "IF") keywords = true)
      by (vm_compute; reflexivity).
    apply existsb_exists in He. destruct He as [x [Hx Heq]].
    apply String.eqb_eq in Heq. now subst x. }
  assert (H2 : "IF" <> "THIS^") by discriminate.
  split; [split; assumption|].
  exact (keyword_pass_marks_every_whole_word "IF" "IF a THEN" H1 H2).
Defined.

(** * Further properties: segments, table of contents, body *)





(** ** Counting rows and page breaks *)

Lemma toc_of_outline_length (o : Outline) :
  length (toc_of_outline o)
  = length o + length (flat_map folder_files o).
Proof.
  unfold toc_of_outline. induction o as [|fh o IH]; [reflexivity|].
  cbn [flat_map]. rewrite !length_app. cbn [length].
  rewrite length_map, IH. lia.
Qed.

Lemma number_files_length (label : string) (files : list (string * list Segment)) :
  forall start, length (number_files label start files) = length files.
Proof.
  unfold number_files, enumerate_from. intros start.
  now rewrite length_map, length_combine, length_seq, Nat.min_id.
Qed.

Lemma numbering_files_length (prefix : string) (g : FolderGroup) :
  forall start,
    length (flat_map folder_files (number_folders prefix start g))
    = length (all_files g).
Proof.
  unfold all_files.
  induction g as [|[folder files] g IH]; intros start; [reflexivity|].
  unfold number_folders. rewrite enumerate_from_cons.
  cbn [map flat_map fst snd folder_files]. rewrite !length_app.
  rewrite number_files_length. f_equal. apply IH.
Qed.

Lemma number_folders_length (prefix : string) (g : FolderGroup) :
  forall start, length (number_folders prefix start g) = length g.
Proof.
  unfold number_folders, enumerate_from. intros start.
  now rewrite length_map, length_combine, length_seq, Nat.min_id.
Qed.

(** X20. The table of contents of a folder group has one row per folder
    and one row per file, whatever the prefix. *)
Theorem toc_has_a_row_per_folder_and_file
    (limit : nat) (g : FolderGroup) (prefix : string) :
  exists toc,
    add_to_toc (S limit) (of_group g) prefix [] = Ok toc
    /\ length toc = length g + length (all_files g).
Proof.
  eexists. split; [apply add_to_toc_rows|].
  cbn [app]. rewrite toc_of_outline_length. unfold numbering.
  now rewrite number_folders_length, numbering_files_length.
Qed.







(** * Further properties: mappings inside the mapping *)

Section NestedMapping.

Context {S : Type}.
Variable call : Dict -> string -> S -> result S.
Hypothesis call_raises :
  forall sub subfiles prefix s,
    is_dict subfiles = true ->
    exists e, call [(sub, subfiles)] prefix s = Raise e.

Lemma subfolders_raises (data : Dict) (folder_label : string) (s : S) :
  has_dict data = true ->
  exists e, subfolders call data folder_label s = Raise e.
Proof.
  intros H. unfold subfolders.
  assert (Hloop : forall n s,
             exists e,
               for_each
                 (fun (sub : Path * value) (st : S * nat) =>
                    let '(subfolder, subfiles) := sub in
                    let '(s, subfolder_index) := st in
                    if is_dict subfiles then
                      s <- call [(subfolder, subfiles)]
                                (folder_label +:+ "." +:+ PyStr.str subfolder_index) s ;;
                      Ok (s, subfolder_index + 1)
                    else Ok (s, subfolder_index))
                 data (s, n) = Raise e).
  { clear s. induction data as [|[sub subfiles] data IH]; intros n s;
      [discriminate H|].
    cbn [for_each]. unfold has_dict in H. cbn [existsb snd] in H.
    destruct (is_dict subfiles) eqn:Hd.
    - destruct (call_raises sub subfiles
                  (folder_label +:+ "." +:+ PyStr.str n) s Hd) as [e He].
      exists e. now rewrite He.
    - cbn [bind]. apply IH. exact H. }
  destruct (Hloop 1 s) as [e He]. exists e. now rewrite He.
Qed.

End NestedMapping.

Lemma has_dict_single (sub : Path) (subfiles : value) :
  is_dict subfiles = true -> has_dict [(sub, subfiles)] = true.
Proof. intros H. unfold has_dict. cbn. now rewrite H. Qed.

Lemma has_dict_enumerate (data : Dict) :
  has_dict data = true ->
  exists item rest, enumerate data = (0, item) :: rest.
Proof.
  destruct data as [|item data]; [discriminate|]. intros _.
  exists item, (enumerate_from 1 data). reflexivity.
Qed.

Lemma add_to_toc_nested (limit : nat) :
  forall data prefix toc,
    has_dict data = true ->
    exists e, add_to_toc limit data prefix toc = Raise e.
Proof.
  induction limit as [|limit IH]; intros data prefix toc H.
  - now exists RecursionError.
  - cbn [add_to_toc].
    destruct (has_dict_enumerate data H) as [[folder files] [rest ->]].
    cbn [for_each toc_folder].
    destruct (for_each (toc_file (prefix +:+ PyStr.str (0 + 1))) (iterate files)
                (toc ++ [[(prefix +:+ PyStr.str (0 + 1)) +:+ " " +:+ folder]], 1))
      as [st|e]; [|now exists e].
    cbn [bind].
    destruct (subfolders_raises (add_to_toc limit)
                (fun sub subfiles p s Hd =>
                   IH [(sub, subfiles)] p s (has_dict_single sub subfiles Hd))
                data (prefix +:+ PyStr.str (0 + 1)) (fst st) H) as [e He].
    exists e. now rewrite He.
Qed.

Lemma add_code_files_nested (limit : nat) :
  forall data prefix elements,
    has_dict data = true ->
    exists e, add_code_files limit data prefix elements = Raise e.
Proof.
  induction limit as [|limit IH]; intros data prefix elements H.
  - now exists RecursionError.
  - cbn [add_code_files].
    destruct (has_dict_enumerate data H) as [[folder files] [rest ->]].
    cbn [for_each add_folder Nat.eqb].
    destruct (for_each (add_file (prefix +:+ PyStr.str (0 + 1))) (iterate files)
                (elements ++ [Paragraph ((prefix +:+ PyStr.str (0 + 1)) +:+ " " +:+ folder) Heading], 1))
      as [st|e]; [|now exists e].
    cbn [bind].
    destruct (subfolders_raises (add_code_files limit)
                (fun sub subfiles p s Hd =>
                   IH [(sub, subfiles)] p s (has_dict_single sub subfiles Hd))
                data (prefix +:+ PyStr.str (0 + 1)) (fst st) H) as [e He].
    exists e. now rewrite He.
Qed.

(** X22. The branch for subfolders never yields a result: when some value
    of the mapping is itself a mapping, the table of contents pass, the body
    pass and the whole rendering end in an exception, at every call depth
    and for every prefix. *)
Theorem nested_mapping_never_renders
    (data : Dict) (limit : nat) (prefix output_pdf : string)
    (toc : list (list string)) (elements : list Flowable) :
  has_dict data = true ->
  (exists e, add_to_toc limit data prefix toc = Raise e)
  /\ (exists e, add_code_files limit data prefix elements = Raise e)
  /\ (exists e, generate_pdf limit data output_pdf = Raise e).
Proof.
  intros H. split; [now apply add_to_toc_nested|].
  split; [now apply add_code_files_nested|].
  unfold generate_pdf.
  destruct (add_to_toc_nested limit data EmptyString [] H) as [e He].
  exists e. now rewrite He.
Qed.

Lemma nested_mapping_never_renders_witness :
  has_dict [("POUs", SubDict [("Sub", Files [])])] = true
  /\ (exists e, add_to_toc 1000 [("POUs", SubDict [("Sub", Files [])])]
                  EmptyString [] = Raise e)
  /\ (exists e, add_code_files 1000 [("POUs", SubDict [("Sub", Files [])])]
                  EmptyString [] = Raise e)
  /\ (exists e, generate_pdf 1000 [("POUs", SubDict [("Sub", Files [])])]
                  "out/report.pdf" = Raise e).
Proof.
  split; [reflexivity|].
  apply (nested_mapping_never_renders
           [("POUs", SubDict [("Sub", Files [])])] 1000 EmptyString
           "out/report.pdf" [] []).
  reflexivity.
Defined.

(** * Further properties: the whole run *)

Lemma extract_folder_printed (parse : Path -> parsed) (files : list Path) :
  fst (extract_folder parse files)
  = flat_map (fun p => fst (extract_entry parse p)) files.
Proof.
  unfold extract_folder.
  rewrite (fold_left_same _
             (fun (acc : list string * list entry) x =>
                (fst acc ++ fst (extract_entry parse x),
                 snd acc ++ [snd (extract_entry parse x)]))).
  - now rewrite fold_left_pair.
  - intros acc x. now destruct (extract_entry parse x).
Qed.

Lemma extract_all_printed (parse : Path -> parsed) (d : list (Path * list Path)) :
  fst (extract_all parse d)
  = flat_map (fun kv => fst (extract_folder parse (snd kv))) d.
Proof.
  unfold extract_all, Dict.
  pose (f := fun kv : Path * list Path =>
               (fst (extract_folder parse (snd kv)),
                (fst kv, Files (snd (extract_folder parse (snd kv)))))).
  rewrite (fold_left_same _
             (fun (acc : list string * list (Path * value)) x =>
                (fst acc ++ fst (f x), snd acc ++ [snd (f x)]))).
  - now rewrite (fold_left_pair f d [] []).
  - intros acc [folder files]. unfold f. cbn [fst snd].
    now destruct (extract_folder parse files).
Qed.

Lemma flat_map_nil {A B : Type} (f : A -> list B) (l : list A) :
  (forall x, In x l -> f x = []) -> flat_map f l = [].
Proof.
  induction l as [|x l IH]; intros H; [reflexivity|].
  cbn. rewrite (H x (or_introl eq_refl)), IH; [reflexivity|].
  intros y Hy. apply H. now right.
Qed.


Section Success.

Variable parse : Path -> parsed.
Variable d : list (Path * list Path).
Hypothesis d_collected : well_collected d.
Hypothesis all_parse :
  forall folder files file_path,
    In (folder, files) d -> In file_path files ->
    exists root, parse file_path = Tree root /\ collect_segments root <> [].



End Success.



(** X24. With fewer than two arguments after the script name the run only
    prints the usage line and ends with status 1: nothing is collected,
    parsed or written. *)
Theorem usage_when_arguments_missing
    (limit : nat) (walk : Path -> list walk_entry) (parse : Path -> parsed)
    (argv : list string) :
  length argv < 3 ->
  main limit walk parse argv
  = mkOutcome
      ["Usage: python twincat_code_extractor.py <input_folder> <output_pdf>"]
      1 None.
Proof.
  intros H. destruct argv as [|a [|b [|c argv]]]; try reflexivity.
  cbn [length] in H. lia.
Qed.

Lemma usage_when_arguments_missing_witness :
  length ["TwinCAT_To_PDF.py"; "in"] < 3
  /\ main 1000 sample_walk_two sample_parse_two ["TwinCAT_To_PDF.py"; "in"]
     = mkOutcome
         ["Usage: python twincat_code_extractor.py <input_folder> <output_pdf>"]
         1 None.
Proof.
  assert (H : length ["TwinCAT_To_PDF.py"; "in"] < 3) by (cbn; lia).
  split; [exact H|].
  exact (usage_when_arguments_missing 1000 sample_walk_two sample_parse_two
           ["TwinCAT_To_PDF.py"; "in"] H).
Defined.

(** ** The generation label of the title page *)

Lemma head_no_slash (f : string) :
  has_char "/" f = false -> OsPath.head f = EmptyString.
Proof.
  destruct f as [|c f]; [reflexivity|]. cbn [has_char OsPath.head].
  intros H. apply orb_false_elim in H. destruct H as [Hc Hf].
  now rewrite contains_char, Hf, Hc.
Qed.

Lemma path_head_append (dir f : string) :
  has_char "/" f = false ->
  OsPath.head (dir +:+ String "/" f) = dir +:+ "/".
Proof.
  intros Hf. induction dir as [|c dir IH].
  - cbn [String.append OsPath.head].
    now rewrite contains_char, Hf, Ascii.eqb_refl.
  - cbn [String.append OsPath.head].
    rewrite contains_char, has_char_append. cbn [has_char].
    rewrite Ascii.eqb_refl. cbn [orb]. rewrite orb_true_r. now rewrite IH.
Qed.

Lemma all_slashes_append (a : string) (c : ascii) :
  Ascii.eqb c "/" = false -> OsPath.all_slashes (a +:+ String c "/") = false.
Proof.
  intros Hc. induction a as [|x a IH]; cbn.
  - now rewrite Hc.
  - rewrite IH. apply andb_false_r.
Qed.

Lemma rstrip_slash_append (a : string) (c : ascii) :
  Ascii.eqb c "/" = false ->
  OsPath.rstrip_slash (a +:+ String c "/") = a +:+ String c EmptyString.
Proof.
  intros Hc. induction a as [|x a IH].
  - cbn. now rewrite Hc.
  - cbn [String.append OsPath.rstrip_slash]. rewrite IH.
    now destruct a.
Qed.

(** X25. The label after "Generated on:" is the last component of the
    folder the output file is written to: for an output path made of a
    folder that does not end in a slash, a slash and a file name, the folder
    is found back and its name is the label; for a bare file name the label
    is empty. *)
Theorem generation_label_is_output_folder (dir : string) (c : ascii) (f : string) :
  has_char "/" f = false ->
  Ascii.eqb c "/" = false ->
  OsPath.dirname ((dir +:+ String c EmptyString) +:+ "/" +:+ f)
  = dir +:+ String c EmptyString
  /\ OsPath.basename (OsPath.dirname ((dir +:+ String c EmptyString) +:+ "/" +:+ f))
     = Path_name (dir +:+ String c EmptyString)
  /\ OsPath.basename (OsPath.dirname f) = EmptyString.
Proof.
  intros Hf Hc.
  assert (Hd : OsPath.dirname ((dir +:+ String c EmptyString) +:+ "/" +:+ f)
               = dir +:+ String c EmptyString).
  { unfold OsPath.dirname.
    change ((dir +:+ String c EmptyString) +:+ "/" +:+ f)
      with ((dir +:+ String c EmptyString) +:+ String "/" f).
    rewrite (path_head_append _ f Hf), append_assoc.
    cbn [String.append].
    rewrite (all_slashes_append dir c Hc), (rstrip_slash_append dir c Hc).
    rewrite truthy_append_r by reflexivity. reflexivity. }
  split; [exact Hd|]. split; [now rewrite Hd|].
  unfold OsPath.dirname. now rewrite (head_no_slash f Hf).
Qed.

Lemma generation_label_is_output_folder_witness :
  (has_char "/" "report.pdf" = false /\ Ascii.eqb "5" "/" = false)
  /\ OsPath.dirname (("out/202" +:+ String "5" EmptyString) +:+ "/" +:+ "report.pdf")
     = "out/2025"
  /\ OsPath.basename
       (OsPath.dirname (("out/202" +:+ String "5" EmptyString) +:+ "/" +:+ "report.pdf"))
     = "2025"
  /\ OsPath.basename (OsPath.dirname "report.pdf") = EmptyString.
Proof.
  split; [split; reflexivity|].
  apply (generation_label_is_output_folder "out/202" "5" "report.pdf");
    reflexivity.
Defined.

(** * Further properties: the main loop and the tree *)

Lemma extract_entry_printed (parse : Path -> parsed) (file_path : Path) :
  fst (extract_entry parse file_path) = error_lines parse file_path.
Proof.
  unfold extract_entry, extract_twincat_code, error_lines.
  now destruct (parse file_path).
Qed.

(** X26. The main loop prints one line for every file that fails to parse,
    naming the path and the cause, in the order of the folders and of their
    files, and nothing for a file that parses; the folders and the length of
    their lists are left as they were. *)
Theorem main_loop_reports_each_failure
    (parse : Path -> parsed) (d : list (Path * list Path)) :
  fst (extract_all parse d) = flat_map (error_lines parse) (all_files d)
  /\ map fst (snd (extract_all parse d)) = map fst d
  /\ snd (extract_all parse d)
     = of_entries (map (fun kv => (fst kv, entries_of parse (snd kv))) d)
  /\ forall folder files,
       In (folder, files) d -> length (entries_of parse files) = length files.
Proof.
  split; [|split; [|split]].
  - rewrite extract_all_printed. unfold all_files.
    rewrite flat_map_flat_map. apply flat_map_ext. intros [folder files].
    cbn [snd]. rewrite extract_folder_printed. apply flat_map_ext.
    intros p. apply extract_entry_printed.
  - rewrite extract_all_entries. unfold of_entries. rewrite !map_map.
    reflexivity.
  - apply extract_all_entries.
  - intros folder files _. unfold entries_of. apply length_map.
Qed.

(** ** Units without code *)

Lemma iter_children (t : string) (a : list (string * string))
    (x : option string) (cs : list ET.Element) :
  ET.iter (ET.Elem t a x cs) = ET.Elem t a x cs :: flat_map ET.iter cs.
Proof. reflexivity. Qed.

Lemma descendants_children (e : ET.Element) :
  descendants e = flat_map ET.iter (ET.children e).
Proof. destruct e as [t a x cs]. unfold descendants. now rewrite iter_children. Qed.

Lemma in_iter_self (e : ET.Element) : In e (ET.iter e).
Proof. destruct e as [t a x cs]. rewrite iter_children. now left. Qed.

Lemma child_is_descendant (e c : ET.Element) :
  In c (ET.children e) -> In c (descendants e).
Proof.
  intros H. rewrite descendants_children. apply in_flat_map.
  exists c. split; [exact H|apply in_iter_self].
Qed.

(** Induction on a tree, with the property known of all children. *)
Lemma Element_induction (P : ET.Element -> Prop) :
  (forall t a x cs, Forall P cs -> P (ET.Elem t a x cs)) ->
  forall e, P e.
Proof.
  intros H. fix rec 1. intros [t a x cs]. apply H.
  induction cs as [|c cs IH]; constructor; [apply rec|exact IH].
Qed.

Lemma iter_transitive (e : ET.Element) :
  forall m c, In m (ET.iter e) -> In c (ET.iter m) -> In c (ET.iter e).
Proof.
  induction e as [t a x cs IH] using Element_induction. intros m c Hm Hc.
  rewrite iter_children in Hm |- *. destruct Hm as [<-|Hm].
  - now rewrite iter_children in Hc.
  - right. apply in_flat_map in Hm. destruct Hm as [ch [Hch Hm]].
    apply in_flat_map. exists ch. split; [exact Hch|].
    rewrite Forall_forall in IH. apply (IH ch Hch m c Hm Hc).
Qed.

Lemma descendant_of_descendant (root m c : ET.Element) :
  In m (descendants root) -> In c (descendants m) -> In c (descendants root).
Proof.
  rewrite !descendants_children. intros Hm Hc.
  apply in_flat_map in Hm. destruct Hm as [ch [Hch Hm]].
  apply in_flat_map. exists ch. split; [exact Hch|].
  apply (iter_transitive ch m c Hm).
  destruct m as [t a x cs]. rewrite iter_children. right. exact Hc.
Qed.

Lemma hd_error_filter_none {A : Type} (f : A -> bool) (l : list A) :
  (forall x, In x l -> f x = false) -> hd_error (filter f l) = None.
Proof.
  induction l as [|x l IH]; intros H; [reflexivity|].
  cbn. rewrite (H x (or_introl eq_refl)). apply IH.
  intros y Hy. apply H. now right.
Qed.

Lemma filter_none {A : Type} (f : A -> bool) (l : list A) :
  (forall x, In x l -> f x = false) -> filter f l = [].
Proof.
  induction l as [|x l IH]; intros H; [reflexivity|].
  cbn. rewrite (H x (or_introl eq_refl)). apply IH.
  intros y Hy. apply H. now right.
Qed.

Section NoCode.

Variable root : ET.Element.
Hypothesis no_declaration :
  forall e, In e (descendants root) -> ET.has_tag "Declaration" e = false.
Hypothesis no_st :
  forall e, In e (descendants root) -> ET.has_tag "ST" e = false.

Lemma no_child_declaration (m : ET.Element) :
  In m (descendants root) -> ET.find_child "Declaration" m = None.
Proof.
  intros Hm. unfold ET.find_child, ET.findall_child, ET.child_step.
  cbn [flat_map]. rewrite app_nil_r. apply hd_error_filter_none.
  intros c Hc. apply no_declaration.
  apply (descendant_of_descendant root m c Hm), child_is_descendant, Hc.
Qed.

Lemma child_step_st (ctx : list ET.Element) :
  (forall m, In m ctx -> In m (descendants root)) ->
  ET.child_step "ST" ctx = [].
Proof.
  intros H. unfold ET.child_step. apply flat_map_nil. intros m Hm.
  apply filter_none. intros c Hc. apply no_st.
  apply (descendant_of_descendant root m c (H m Hm)), child_is_descendant, Hc.
Qed.

Lemma no_child_implementation (m : ET.Element) :
  In m (descendants root) -> ET.find_child2 "Implementation" "ST" m = None.
Proof.
  intros Hm. unfold ET.find_child2. rewrite child_step_st; [reflexivity|].
  intros c Hc. unfold ET.child_step in Hc. cbn [flat_map] in Hc.
  rewrite app_nil_r in Hc. apply filter_In in Hc. destruct Hc as [Hc _].
  apply (descendant_of_descendant root m c Hm), child_is_descendant, Hc.
Qed.

Lemma find_child_descendant (t : string) (m c : ET.Element) :
  In m (descendants root) -> ET.find_child t m = Some c ->
  In c (descendants root).
Proof.
  intros Hm Hc. unfold ET.find_child, ET.findall_child, ET.child_step in Hc.
  cbn [flat_map] in Hc. rewrite app_nil_r in Hc.
  destruct (filter (ET.has_tag t) (ET.children m)) as [|c' l] eqn:Hf;
    [discriminate Hc|].
  injection Hc as ->.
  assert (Hin : In c (filter (ET.has_tag t) (ET.children m)))
    by (rewrite Hf; now left).
  apply filter_In in Hin. destruct Hin as [Hin _].
  apply (descendant_of_descendant root m c Hm), child_is_descendant, Hin.
Qed.

Lemma findall_desc_descendant (t : string) (m : ET.Element) :
  In m (ET.findall_desc t root) -> In m (descendants root).
Proof.
  unfold ET.findall_desc, ET.descendant_step. cbn [flat_map].
  rewrite app_nil_r. intros H. apply filter_In in H. apply H.
Qed.

Lemma emit_none (label : string) : emit (label, None) = [].
Proof. reflexivity. Qed.

Lemma no_code_candidates_emit_nothing :
  flat_map emit (canonical_candidates root) = [].
Proof.
  apply flat_map_nil. intros [label node] Hc.
  assert (Hnode : node = None); [|subst node; apply emit_none].
  unfold canonical_candidates in Hc.
  apply in_app_or in Hc. destruct Hc as [Hc|Hc].
  - destruct Hc as [Hc|[Hc|[]]]; injection Hc as _ <-.
    + unfold ET.find_desc, ET.findall_desc, ET.descendant_step.
      cbn [flat_map]. rewrite app_nil_r. now apply hd_error_filter_none.
    + unfold ET.find_desc2. rewrite child_step_st; [reflexivity|].
      intros m Hm. unfold ET.descendant_step in Hm. cbn [flat_map] in Hm.
      rewrite app_nil_r in Hm. apply filter_In in Hm. apply Hm.
  - apply in_app_or in Hc. destruct Hc as [Hc|Hc];
      apply in_flat_map in Hc; destruct Hc as [m [Hm Hc]];
      apply findall_desc_descendant in Hm.
    + destruct Hc as [Hc|[Hc|[]]]; injection Hc as _ <-.
      * now apply no_child_declaration.
      * now apply no_child_implementation.
    + unfold property_candidates in Hc.
      apply in_app_or in Hc. destruct Hc as [Hc|Hc].
      * destruct Hc as [Hc|[]]. injection Hc as _ <-.
        now apply no_child_declaration.
      * apply in_app_or in Hc. destruct Hc as [Hc|Hc].
        -- destruct (ET.find_child "Get" m) as [acc|] eqn:Hacc; [|destruct Hc].
           pose proof (find_child_descendant "Get" m acc Hm Hacc) as Hd.
           destruct Hc as [Hc|[Hc|[]]]; injection Hc as _ <-.
           ++ now apply no_child_declaration.
           ++ now apply no_child_implementation.
        -- destruct (ET.find_child "Set" m) as [acc|] eqn:Hacc; [|destruct Hc].
           pose proof (find_child_descendant "Set" m acc Hm Hacc) as Hd.
           destruct Hc as [Hc|[Hc|[]]]; injection Hc as _ <-.
           ++ now apply no_child_declaration.
           ++ now apply no_child_implementation.
Qed.

End NoCode.

(** X27. A unit in whose tree no element below the root is tagged
    Declaration or ST yields no segment at all; the main loop then leaves the
    path of its file in place of the unit. *)
Theorem unit_without_code_has_no_segment
    (parse : Path -> parsed) (file_path : Path) (root : ET.Element) :
  (forall e, In e (descendants root) -> ET.tag e <> "Declaration") ->
  (forall e, In e (descendants root) -> ET.tag e <> "ST") ->
  parse file_path = Tree root ->
  collect_segments root = []
  /\ snd (extract_entry parse file_path) = RawPath file_path.
Proof.
  intros Hd Hs Hparse.
  assert (Hnil : collect_segments root = []).
  { rewrite collect_segments_canonical, canonical_segments_emit.
    apply no_code_candidates_emit_nothing; intros e He;
      unfold ET.has_tag; apply String.eqb_neq; auto. }
  split; [exact Hnil|].
  now rewrite (extract_entry_no_segments parse file_path root Hparse Hnil).
Qed.

Lemma unit_without_code_has_no_segment_witness :
  ((forall e, In e (descendants sample_no_code) -> ET.tag e <> "Declaration")
   /\ (forall e, In e (descendants sample_no_code) -> ET.tag e <> "ST")
   /\ (fun _ : Path => Tree sample_no_code) "in/Task.TcIO" = Tree sample_no_code)
  /\ collect_segments sample_no_code = []
  /\ snd (extract_entry (fun _ => Tree sample_no_code) "in/Task.TcIO")
     = RawPath "in/Task.TcIO".
Proof.
  assert (H1 : forall e, In e (descendants sample_no_code) ->
                         ET.tag e <> "Declaration").
  { intros e [<-|[<-|[]]]; discriminate. }
  assert (H2 : forall e, In e (descendants sample_no_code) -> ET.tag e <> "ST").
  { intros e [<-|[<-|[]]]; discriminate. }
  split; [repeat split; assumption|].
  exact (unit_without_code_has_no_segment (fun _ => Tree sample_no_code)
           "in/Task.TcIO" sample_no_code H1 H2 eq_refl).
Defined.

(** X28. The main-implementation lookup, too, searches all descendants:
    when the first ST element under an Implementation element, in document
    order, is the one found for a method of the unit and its payload is not
    empty after trimming, the payload is emitted as the segment labelled
    Implementation and again as the implementation segment of that method. *)
Theorem method_implementation_emitted_twice (root m st : ET.Element) :
  ET.find_desc2 "Implementation" "ST" root = Some st ->
  In m (ET.findall_desc "Method" root) ->
  ET.find_child2 "Implementation" "ST" m = Some st ->
  PyStr.truthy (node_payload (Some st)) = true ->
  In ("Implementation", node_payload (Some st)) (collect_segments root)
  /\ In ("Method " +:+ ET.get (ET.attrib m) "Name" "Unknown" +:+ " Implementation",
         node_payload (Some st))
        (collect_segments root).
Proof.
  intros Hmain Hm Himpl Hpay.
  rewrite collect_segments_canonical, canonical_segments_emit.
  unfold canonical_candidates. split.
  - apply in_flat_map. exists ("Implementation", Some st). split.
    + apply in_or_app. left. rewrite Hmain. right. now left.
    + rewrite (emit_truthy _ _ Hpay). now left.
  - apply in_flat_map.
    exists ("Method " +:+ ET.get (ET.attrib m) "Name" "Unknown" +:+ " Implementation",
            Some st).
    split.
    + apply in_or_app. right. apply in_or_app. left.
      apply in_flat_map. exists m. split; [exact Hm|].
      unfold method_candidates. rewrite Himpl. right. now left.
    + rewrite (emit_truthy _ _ Hpay). now left.
Qed.

Lemma method_implementation_emitted_twice_witness :
  (ET.find_desc2 "Implementation" "ST" sample_method_unit
   = Some (ET.Elem "ST" [] (Some "x := 1;") [])
   /\ In sample_method_body (ET.findall_desc "Method" sample_method_unit)
   /\ ET.find_child2 "Implementation" "ST" sample_method_body
      = Some (ET.Elem "ST" [] (Some "x := 1;") [])
   /\ PyStr.truthy (node_payload (Some (ET.Elem "ST" [] (Some "x := 1;") [])))
      = true)
  /\ In ("Implementation", "x := 1;") (collect_segments sample_method_unit)
  /\ In ("Method Run Implementation", "x := 1;")
        (collect_segments sample_method_unit).
Proof.
  assert (H1 : ET.find_desc2 "Implementation" "ST" sample_method_unit
               = Some (ET.Elem "ST" [] (Some "x := 1;") [])) by reflexivity.
  assert (H2 : In sample_method_body (ET.findall_desc "Method" sample_method_unit))
    by (simpl; auto).
  assert (H3 : ET.find_child2 "Implementation" "ST" sample_method_body
               = Some (ET.Elem "ST" [] (Some "x := 1;") [])) by reflexivity.
  assert (H4 : PyStr.truthy
                 (node_payload (Some (ET.Elem "ST" [] (Some "x := 1;") [])))
               = true) by reflexivity.
  split; [repeat split; assumption|].
  exact (method_implementation_emitted_twice sample_method_unit
           sample_method_body (ET.Elem "ST" [] (Some "x := 1;") [])
           H1 H2 H3 H4).
Defined.
